(** * SIM7600 4G dongle controller

    A shallow embedding of [sim7600_controller.py] (class [SIM7600Controller])
    and the properties of its AT-command session: the transceiver [send_at],
    the signal query, dialling, answering, hanging up, the monitoring loop and
    the listing of call logs.

    Python text is held as [string] (its UTF-8 bytes, so the literals below
    are the ones of the source); what the program does to the outside
    (serial port, standard output, the [call_logs] directory, the clock,
    Ctrl+C) is explicit state in [World].

    The environment acts while the process is blocked in [time.sleep], which
    is where it spends its time: each sleep takes the next [Event] of a
    script (text arriving on the line, the clock moving, Ctrl+C, the link
    going down).  A method is a function [World -> outcome * World]; an
    [outcome] is a value, a Python exception, or [Unfinished] when the
    [while] loop was given fewer passes than it needs.  [connect], [close]
    and [main] only open and close the port and parse the command line: a
    session after them is a [World] with or without a [Channel]. *)

From Stdlib Require Import String Ascii List Bool ZArith NArith Lia DecimalString Sorted.
Import ListNotations.
Local Open Scope string_scope.

(** ** Python text operations used by the controller *)

Module Text.

(** A Python [str] is held as its UTF-8 encoding: one to four bytes for
    each code point.  The ASCII needles of the source ("OK", "CALL", "0",
    "+CSQ:", the line breaks) are found at the same places in either form;
    white space, digits and validity are read off the code points. *)

Definition LF : ascii := "010"%char.
Definition CR : ascii := "013"%char.
Definition NL : string := String LF "".
Definition CRLF : string := String CR (String LF "").

Definition byte (c : ascii) : N := N_of_ascii c.

(** The payload of a continuation byte (10xxxxxx). *)
Definition continuation (c : ascii) : option N :=
  let n := byte c in
  if ((128 <=? n) && (n <=? 191))%N then Some (n - 128)%N else None.

(** The code point at the head of [s], the bytes that encode it and what
    follows them, as the strict UTF-8 codec reads them: no overlong form, no
    surrogate, nothing above U+10FFFF.  [None] on the empty text and on
    bytes that are not UTF-8. *)
Definition decode_char (s : string) : option (N * string * string) :=
  match s with
  | "" => None
  | String a t =>
      let n := byte a in
      if (n <? 128)%N then Some (n, String a "", t)
      else if ((194 <=? n) && (n <=? 223))%N then
        match t with
        | String b t1 =>
            match continuation b with
            | Some x => Some (((n - 192) * 64 + x)%N, String a (String b ""), t1)
            | None => None
            end
        | "" => None
        end
      else if ((224 <=? n) && (n <=? 239))%N then
        match t with
        | String b (String c t2) =>
            match continuation b, continuation c with
            | Some x, Some y =>
                let cp := ((((n - 224) * 64 + x) * 64) + y)%N in
                if ((2048 <=? cp) && negb ((55296 <=? cp) && (cp <=? 57343)))%N
                then Some (cp, String a (String b (String c "")), t2)
                else None
            | _, _ => None
            end
        | _ => None
        end
      else if ((240 <=? n) && (n <=? 244))%N then
        match t with
        | String b (String c (String d t3)) =>
            match continuation b, continuation c, continuation d with
            | Some x, Some y, Some z =>
                let cp := ((((((n - 240) * 64 + x) * 64) + y) * 64) + z)%N in
                if ((65536 <=? cp) && (cp <=? 1114111))%N
                then Some (cp, String a (String b (String c (String d ""))), t3)
                else None
            | _, _, _ => None
            end
        | _ => None
        end
      else None
  end.

(** Whether the bytes of a file are UTF-8 text, which is what
    [open(..., encoding='utf-8')] followed by a read insists on. *)
Fixpoint valid_from (fuel : nat) (s : string) : bool :=
  match s with
  | "" => true
  | _ =>
      match fuel with
      | O => false
      | S fuel' =>
          match decode_char s with
          | Some (_, _, rest) => valid_from fuel' rest
          | None => false
          end
      end
  end.

Definition valid_utf8 (s : string) : bool := valid_from (String.length s) s.

(** [str.isspace] on one code point, also the regex class [\s] and what
    [str.strip()] removes: TAB to CR, FS to US, SPACE, U+0085, U+00A0,
    U+1680, U+2000 to U+200A, U+2028, U+2029, U+202F, U+205F, U+3000. *)
Definition is_space (cp : N) : bool :=
  (((9 <=? cp) && (cp <=? 13)) || ((28 <=? cp) && (cp <=? 32))
   || (cp =? 133) || (cp =? 160) || (cp =? 5760)
   || ((8192 <=? cp) && (cp <=? 8202))
   || (cp =? 8232) || (cp =? 8233) || (cp =? 8239) || (cp =? 8287)
   || (cp =? 12288))%N.

(** The code points of the digit zero of every run of decimal digits of
    Unicode 14.0 (general category Nd): each is followed by its digits one
    to nine.  This is the table behind the regex class [\d] on a [str]
    pattern and behind [int()]. *)
Definition decimal_zeros : list N :=
  [
    48; 1632; 1776; 1984; 2406; 2534; 2662; 2790;
    2918; 3046; 3174; 3302; 3430; 3558; 3664; 3792;
    3872; 4160; 4240; 6112; 6160; 6470; 6608; 6784;
    6800; 6992; 7088; 7232; 7248; 42528; 43216; 43264;
    43472; 43504; 43600; 44016; 65296; 66720; 68912; 69734;
    69872; 69942; 70096; 70384; 70736; 70864; 71248; 71360;
    71472; 71904; 72016; 72784; 73040; 73120; 92768; 92864;
    93008; 120782; 120792; 120802; 120812; 120822; 123200; 123632;
    125264; 130032
  ]%N.

(** The value of a decimal digit, [None] for any other code point. *)
Definition decimal_value (cp : N) : option N :=
  match find (fun z => ((z <=? cp) && (cp <? z + 10))%N) decimal_zeros with
  | Some z => Some (cp - z)%N
  | None => None
  end.

Definition is_digit (cp : N) : bool :=
  match decimal_value cp with Some _ => true | None => false end.

(** [s.lstrip()]: white space is dropped from the head, one code point at
    a time. *)
Fixpoint lstrip_from (fuel : nat) (s : string) : string :=
  match fuel with
  | O => s
  | S fuel' =>
      match decode_char s with
      | Some (cp, _, rest) => if is_space cp then lstrip_from fuel' rest else s
      | None => s
      end
  end.

Definition lstrip (s : string) : string := lstrip_from (String.length s) s.

(** [u] is the encoding of exactly one white-space code point. *)
Definition is_space_char (u : string) : bool :=
  match decode_char u with
  | Some (cp, _, "") => is_space cp
  | _ => false
  end.

(** [s.rstrip()]: once the tail is stripped, a head that is left as one
    white-space code point on its own goes as well. *)
Fixpoint rstrip (s : string) : string :=
  match s with
  | "" => ""
  | String c t =>
      let t' := rstrip t in
      if is_space_char (String c t') then "" else String c t'
  end.

(** [s.strip()] *)
Definition strip (s : string) : string := lstrip (rstrip s).

(** [needle in s] for two [str] *)
Fixpoint contains (needle s : string) : bool :=
  String.prefix needle s
  || match s with
     | "" => false
     | String _ t => contains needle t
     end.

Fixpoint ends_with (suffix s : string) : bool :=
  String.eqb suffix s
  || match s with
     | "" => false
     | String _ t => ends_with suffix t
     end.

(** [bool(s)] for a [str]: the empty string is falsy. *)
Definition truthy (s : string) : bool :=
  match s with "" => false | _ => true end.

(** The values of the digits of [g], [None] when [g] holds anything but
    decimal digits. *)
Fixpoint digit_values (fuel : nat) (g : string) : option (list N) :=
  match g with
  | "" => Some []
  | _ =>
      match fuel with
      | O => None
      | S fuel' =>
          match decode_char g with
          | Some (cp, _, rest) =>
              match decimal_value cp, digit_values fuel' rest with
              | Some v, Some vs => Some (v :: vs)
              | _, _ => None
              end
          | None => None
          end
      end
  end.

(** CPython's default limit on the digits [int()] converts
    ([sys.int_max_str_digits]). *)
Definition int_max_str_digits : nat := 4300.

(** [int(g)] for a run of decimal digits: [None] stands for the
    [ValueError] CPython raises when the run is longer than the limit. *)
Definition int_of_digits (g : string) : option N :=
  match digit_values (String.length g) g with
  | Some vs =>
      if Nat.ltb int_max_str_digits (List.length vs) then None
      else Some (fold_left (fun acc v => (acc * 10 + v)%N) vs 0%N)
  | None => None
  end.

(** [str(n)] / [f"{n}"] for a non-negative [int] *)
Definition str_of_N (n : N) : string := NilEmpty.string_of_uint (N.to_uint n).

Fixpoint zeros (k : nat) : string :=
  match k with O => "" | S k' => String "0"%char (zeros k') end.

(** [%0<width>d] as [strftime] pads its numeric fields *)
Definition zero_pad (width : nat) (n : N) : string :=
  let s := str_of_N n in zeros (width - String.length s) ++ s.

(** The longest run of decimal digits at the head of [s], and the rest:
    the greedy [\d+]. *)
Fixpoint digits_run (fuel : nat) (s : string) : string * string :=
  match fuel with
  | O => ("", s)
  | S fuel' =>
      match decode_char s with
      | Some (cp, ch, rest) =>
          if is_digit cp
          then let (g, r) := digits_run fuel' rest in (ch ++ g, r)
          else ("", s)
      | None => ("", s)
      end
  end.

Definition span_digits (s : string) : string * string :=
  digits_run (String.length s) s.

Fixpoint strip_prefix (pre s : string) : option string :=
  match pre, s with
  | "", _ => Some s
  | String a pre', String b s' =>
      if Ascii.eqb a b then strip_prefix pre' s' else None
  | String _ _, "" => None
  end.

(** One attempt of the pattern [\+CSQ:\s*(\d+),(\d+)] at the head of [s];
    the result is (group 1, group 2).  The three classes that follow one
    another ([\s], [\d], the comma) are disjoint, so the greedy choice at
    [\s*] and at each [\d+] is the only one that can succeed and no
    backtracking changes the outcome. *)
Definition match_csq_here (s : string) : option (string * string) :=
  match strip_prefix "+CSQ:" s with
  | None => None
  | Some s1 =>
      let s2 := lstrip s1 in
      let (g1, s3) := span_digits s2 in
      match g1, s3 with
      | String _ _, String c s4 =>
          if Ascii.eqb c ","%char then
            let (g2, _) := span_digits s4 in
            match g2 with
            | "" => None
            | _ => Some (g1, g2)
            end
          else None
      | _, _ => None
      end
  end.

(** [re.search(r'\+CSQ:\s*(\d+),(\d+)', s)]: the leftmost position at which
    the pattern matches. *)
Fixpoint re_search_csq (s : string) : option (string * string) :=
  match match_csq_here s with
  | Some m => Some m
  | None =>
      match s with
      | "" => None
      | String _ t => re_search_csq t
      end
  end.

(** [f.readlines()] of a file opened in text mode: the default universal
    newlines end a line at LF, CR LF or a lone CR and hand each of them over
    as LF. *)
Fixpoint readlines_from (cur s : string) : list string :=
  match s with
  | "" => match cur with "" => [] | _ => [cur] end
  | String c t =>
      if Ascii.eqb c LF then (cur ++ NL) :: readlines_from "" t
      else if Ascii.eqb c CR then
        match t with
        | String c' t' =>
            if Ascii.eqb c' LF then (cur ++ NL) :: readlines_from "" t'
            else (cur ++ NL) :: readlines_from "" t
        | "" => (cur ++ NL) :: readlines_from "" t
        end
      else readlines_from (cur ++ String c "") t
  end.

Definition readlines (s : string) : list string := readlines_from "" s.

End Text.

Import Text.

(** ** The outside world and Python's control effects *)

Module Env.

(** What [datetime.now()] returns, and the three formats the controller
    passes to [strftime]. *)
Record datetime := DateTime {
  year : N; month : N; day : N; hour : N; minute : N; second : N
}.

(** [strftime("%H:%M:%S")] *)
Definition strftime_hms (d : datetime) : string :=
  zero_pad 2 (hour d) ++ ":" ++ zero_pad 2 (minute d) ++ ":" ++ zero_pad 2 (second d).

(** [strftime("%Y%m%d_%H%M%S")] *)
Definition strftime_compact (d : datetime) : string :=
  zero_pad 4 (year d) ++ zero_pad 2 (month d) ++ zero_pad 2 (day d) ++ "_"
  ++ zero_pad 2 (hour d) ++ zero_pad 2 (minute d) ++ zero_pad 2 (second d).

(** [strftime("%Y-%m-%d %H:%M:%S")] *)
Definition strftime_iso (d : datetime) : string :=
  zero_pad 4 (year d) ++ "-" ++ zero_pad 2 (month d) ++ "-" ++ zero_pad 2 (day d)
  ++ " " ++ strftime_hms d.

(** A reading of the system clock: seconds since the epoch (what the file
    system stamps a file with and [os.path.getmtime] reports) and the local
    calendar time. *)
Record Clock := MkClock { epoch : Z; local : datetime }.

(** What can reach the process while it is blocked in [time.sleep]. *)
Inductive Signal := NoSignal | SigInt | LinkDown.

(** One [time.sleep] of the run, as the environment fills it: the text that
    arrives on the serial line meanwhile, the clock when the sleep ends
    ([None]: unchanged) and whether Ctrl+C is pressed or the link is lost. *)
Record Event := MkEvent {
  arrives : string;
  clock : option Clock;
  signal : Signal
}.

Definition reply (s : string) : Event :=
  {| arrives := s; clock := None; signal := NoSignal |}.
Definition silence : Event := reply "".
Definition ctrl_c : Event :=
  {| arrives := ""; clock := None; signal := SigInt |}.
Definition unplug : Event :=
  {| arrives := ""; clock := None; signal := LinkDown |}.

(** The [serial.Serial] object.  [rx] is the input buffer, held as the text
    its bytes decode to under [decode('utf-8', errors='ignore')]; [tx] is
    every [write] so far; once the link is lost ([alive = false]) [write]
    and [in_waiting] raise. *)
Record Channel := MkChannel {
  rx : string;
  tx : list string;
  alive : bool
}.

(** A file of the [call_logs] directory. *)
Record File := MkFile { content : string; mtime : Z }.

(** The directory [call_logs]: entries in directory order, keyed by the
    path below [call_logs/].  The directory exists (the constructor makes
    it) and holds plain files only, no subdirectories; permissions and a
    full disk are outside the model. *)
Definition Dir := list (string * File).

Record World := MkWorld {
  ser : option Channel;        (* self.ser; None until connect() succeeds *)
  call_active : option bool;   (* self._call_active; None while the attribute is unset *)
  fs : Dir;
  out : list string;           (* standard output, one entry per print() *)
  now : Clock;
  script : list Event          (* the sleeps to come *)
}.

Definition set_ser (c : option Channel) (w : World) : World :=
  {| ser := c; call_active := call_active w; fs := fs w; out := out w;
     now := now w; script := script w |}.
Definition set_active (b : option bool) (w : World) : World :=
  {| ser := ser w; call_active := b; fs := fs w; out := out w;
     now := now w; script := script w |}.
Definition set_fs (d : Dir) (w : World) : World :=
  {| ser := ser w; call_active := call_active w; fs := d; out := out w;
     now := now w; script := script w |}.
Definition set_out (o : list string) (w : World) : World :=
  {| ser := ser w; call_active := call_active w; fs := fs w; out := o;
     now := now w; script := script w |}.

(** [OSError] stands for its subclasses as well ([FileNotFoundError],
    [IsADirectoryError]); [UnicodeDecodeError] is kept apart from
    [ValueError], its base class, because nothing in the program catches
    either. *)
Inductive exn :=
| TypeError | IndexError | AttributeError | KeyboardInterrupt | SerialException
| ValueError | OSError | UnicodeDecodeError.

(** How a piece of the program ends: with a value, with an exception, or
    not within the cycles the monitoring loop was given. *)
Inductive outcome (A : Type) :=
| Ok (a : A)
| Raise (e : exn)
| Unfinished.
Arguments Ok {A} a.
Arguments Raise {A} e.
Arguments Unfinished {A}.

Definition M (A : Type) : Type := World -> outcome A * World.

Definition ret {A} (a : A) : M A := fun w => (Ok a, w).
Definition raise {A} (e : exn) : M A := fun w => (Raise e, w).
Definition bind {A B} (m : M A) (k : A -> M B) : M B := fun w =>
  match m w with
  | (Ok a, w') => k a w'
  | (Raise e, w') => (Raise e, w')
  | (Unfinished, w') => (Unfinished, w')
  end.

(** [try: body  except <handled by h>: ...] *)
Definition try_except {A} (body : M A) (h : exn -> M A) : M A := fun w =>
  match body w with
  | (Raise e, w') => h e w'
  | r => r
  end.

(** [try: body  finally: fin].  The [finally] suite runs however the body
    ends; an exception of its own replaces the body's result. *)
Definition try_finally {A B} (body : M A) (fin : M B) : M A := fun w =>
  match body w with
  | (Unfinished, w') => (Unfinished, w')
  | (r, w') =>
      match fin w' with
      | (Ok _, w'') => (r, w'')
      | (Raise e, w'') => (Raise e, w'')
      | (Unfinished, w'') => (Unfinished, w'')
      end
  end.

Declare Scope py_scope.
Delimit Scope py_scope with py.
Notation "x <- m ;; k" := (bind m (fun x => k))
  (at level 61, m at next level, right associativity) : py_scope.
Notation "m ;; k" := (bind m (fun _ => k))
  (at level 61, right associativity) : py_scope.

Local Open Scope py_scope.

(** [print(s)] *)
Definition print (s : string) : M unit := fun w =>
  (Ok tt, set_out (out w ++ [s]) w).

(** [datetime.now()] *)
Definition datetime_now : M datetime := fun w => (Ok (local (now w)), w).

Definition deliver (s : string) (down : bool) (c : Channel) : Channel :=
  {| rx := rx c ++ s; tx := tx c; alive := alive c && negb down |}.

(** [time.sleep(ms / 1000)]: the next event of the script happens. *)
Definition time_sleep (ms : N) : M unit := fun w =>
  match script w with
  | [] => (Ok tt, w)
  | e :: es =>
      let down := match signal e with LinkDown => true | _ => false end in
      let w' := {| ser := option_map (deliver (arrives e) down) (ser w);
                   call_active := call_active w; fs := fs w; out := out w;
                   now := match clock e with Some c => c | None => now w end;
                   script := es |} in
      match signal e with
      | SigInt => (Raise KeyboardInterrupt, w')
      | _ => (Ok tt, w')
      end
  end.

(** [self.ser.write(data)] *)
Definition ser_write (data : string) : M unit := fun w =>
  match ser w with
  | None => (Raise AttributeError, w)
  | Some c =>
      if alive c
      then (Ok tt, set_ser (Some {| rx := rx c; tx := tx c ++ [data]; alive := alive c |}) w)
      else (Raise SerialException, w)
  end.

(** [self.ser.in_waiting] *)
Definition ser_in_waiting : M nat := fun w =>
  match ser w with
  | None => (Raise AttributeError, w)
  | Some c =>
      if alive c then (Ok (String.length (rx c)), w) else (Raise SerialException, w)
  end.

(** [self.ser.read(n).decode('utf-8', errors='ignore')]; the buffer already
    holds decoded text. *)
Definition ser_read (n : nat) : M string := fun w =>
  match ser w with
  | None => (Raise AttributeError, w)
  | Some c =>
      (Ok (substring 0 n (rx c)),
       set_ser (Some {| rx := substring n (String.length (rx c) - n) (rx c);
                        tx := tx c; alive := alive c |}) w)
  end.

Fixpoint fs_lookup (p : string) (d : Dir) : option File :=
  match d with
  | [] => None
  | (q, f) :: d' => if String.eqb p q then Some f else fs_lookup p d'
  end.

Fixpoint fs_put (p : string) (f : File) (d : Dir) : Dir :=
  match d with
  | [] => [(p, f)]
  | (q, g) :: d' => if String.eqb p q then (p, f) :: d' else (q, g) :: fs_put p f d'
  end.

(** The longest file name the file system takes ([NAME_MAX], in bytes). *)
Definition name_max : nat := 255.

(** What [open(call_logs / p, ...)] raises for writing on a POSIX file
    system before any file is touched: [ValueError] (embedded null byte) for a NUL in the path;
    [FileNotFoundError] for a slash, since the path then runs through a
    subdirectory that is not there; [IsADirectoryError] for the directory
    itself and its dot entries; [OSError] (file name too long) past
    [name_max].  [None]: the file is opened. *)
Definition open_error (p : string) : option exn :=
  if contains (String zero "") p then Some ValueError
  else if contains "/" p then Some OSError
  else if String.eqb p "" || String.eqb p "." || String.eqb p ".." then Some OSError
  else if Nat.ltb name_max (String.length p) then Some OSError
  else None.

(** The names [open] takes. *)
Definition valid_name (p : string) : bool :=
  match open_error p with None => true | Some _ => false end.

(** [with open(p, 'w') as f: f.write(text)] *)
Definition write_file (p text : string) : M unit := fun w =>
  match open_error p with
  | Some e => (Raise e, w)
  | None =>
      (Ok tt, set_fs (fs_put p {| content := text; mtime := epoch (now w) |} (fs w)) w)
  end.

(** [with open(p, 'a') as f: f.write(text)] *)
Definition append_file (p text : string) : M unit := fun w =>
  match open_error p with
  | Some e => (Raise e, w)
  | None =>
      let old := match fs_lookup p (fs w) with Some f => content f | None => "" end in
      (Ok tt, set_fs (fs_put p {| content := old ++ text; mtime := epoch (now w) |} (fs w)) w)
  end.

(** [needle in result] where [result] came from [send_at]: on [None] Python
    raises [TypeError: argument of type 'NoneType' is not iterable]. *)
Definition py_in (needle : string) (result : option string) : M bool :=
  match result with
  | None => raise TypeError
  | Some r => ret (contains needle r)
  end.

End Env.

Import Env.
Local Open Scope py_scope.

(** ** The controller: the methods of [SIM7600Controller] *)

Module SIM7600Controller.

(** [str(self.call_log_dir / name)] *)
Definition path_str (name : string) : string := "call_logs/" ++ name.

(** The tail of [send_at]:
    [while self.ser.in_waiting: response += self.ser.read(self.ser.in_waiting).decode(...)].
    Text arrives only while the process sleeps, so the first pass empties
    the buffer and the second test of [in_waiting] ends the loop. *)
Definition read_response : M string :=
  n <- ser_in_waiting ;;
  match n with
  | O => ret ""
  | S _ => data <- ser_read n ;; ret ("" ++ data)
  end.

(** [send_at(command, wait)]; [wait] in milliseconds.  [None] is Python's
    [None], returned when no port is open. *)
Definition send_at (command : string) (wait : N) : M (option string) := fun w =>
  match ser w with
  | None => (print "❌ 未連接" ;; ret None) w
  | Some _ =>
      (ser_write (command ++ CRLF) ;;
       time_sleep wait ;;
       response <- read_response ;;
       ret (Some (strip response))) w
  end.

Definition no_signal_text : string := "無訊號".
Definition strong_text (rssi : N) : string := "訊號強 (" ++ str_of_N rssi ++ "/31)".
Definition fair_text (rssi : N) : string := "訊號一般 (" ++ str_of_N rssi ++ "/31)".
Definition unreadable_text : string := "無法獲取訊號".

(** [get_signal()] *)
Definition get_signal : M string :=
  result <- send_at "AT+CSQ" 1000 ;;
  match result with
  | Some r =>
      if truthy r && contains "+CSQ:" r then
        match re_search_csq r with
        | Some (g1, _) =>
            match int_of_digits g1 with
            | Some rssi =>
                if (rssi =? 99)%N then ret no_signal_text
                else if (20 <=? rssi)%N then ret (strong_text rssi)
                else ret (fair_text rssi)
            | None => raise ValueError
            end
        | None => ret unreadable_text
        end
      else ret unreadable_text
  | None => ret unreadable_text
  end.

Definition hangup_banner : string := "📴 正在結束通話...".

(** [hangup()] *)
Definition hangup : M bool :=
  print hangup_banner ;;
  result <- send_at "ATH" 1000 ;;
  (fun w => (Ok tt, set_active (Some false) w)) ;;
  py_in "OK" result.

Definition banner_line : string := "=== 通話記錄 ===".
Definition direction_line (call_type : string) : string :=
  "類型: " ++ (if String.eqb call_type "outgoing" then "打出" else "接收").
Definition number_line (number : string) : string := "號碼: " ++ number.
Definition time_line (d : datetime) : string := "時間: " ++ strftime_iso d.
Definition closing_line : string := "==================".

(** The five [f.write] calls of [_create_log_file], in order. *)
Definition header_text (call_type number : string) (d : datetime) : string :=
  banner_line ++ NL
  ++ direction_line call_type ++ NL
  ++ number_line number ++ NL
  ++ time_line d ++ NL
  ++ closing_line ++ NL ++ NL.

(** [_create_log_file(call_type, number)]; the result is the path below
    [call_logs/]. *)
Definition _create_log_file (call_type number : string) : M string :=
  t <- datetime_now ;;
  let timestamp := strftime_compact t in
  let filename := call_type ++ "_" ++ number ++ "_" ++ timestamp ++ ".txt" in
  t' <- datetime_now ;;
  write_file filename (header_text call_type number t') ;;
  ret filename.

(** Lines 152-159 of the loop body: what is waiting on the line is read,
    echoed and appended to the log. *)
Definition drain_incoming (log_file : string) : M unit := fun w =>
  match ser w with
  | None => (Ok tt, w)
  | Some _ =>
      (n <- ser_in_waiting ;;
       match n with
       | O => ret tt
       | S _ =>
           data <- ser_read n ;;
           if truthy data then
             print ("  > " ++ strip data) ;;
             t <- datetime_now ;;
             append_file log_file ("[" ++ strftime_hms t ++ "] " ++ strip data ++ NL)
           else ret tt
       end) w
  end.

Definition remote_hangup_text : string := "📴 對方已掛線".

(** Lines 163-165: [if result and "0" not in result]. *)
Definition judge_status (result : option string) : M unit :=
  match result with
  | Some r =>
      if truthy r && negb (contains "0" r) then
        print remote_hangup_text ;;
        (fun w => (Ok tt, set_active (Some false) w))
      else ret tt
  | None => ret tt
  end.

(** One pass through the body of [while self._call_active]. *)
Definition monitor_cycle (log_file : string) : M unit :=
  drain_incoming log_file ;;
  result <- send_at "AT+CPAS" 500 ;;
  judge_status result ;;
  time_sleep 500.

(** [while self._call_active: ...], run for at most [fuel] passes.  Reading
    the attribute before it was ever assigned raises [AttributeError]. *)
Fixpoint monitor_loop (fuel : nat) (log_file : string) : M unit := fun w =>
  match call_active w with
  | None => (Raise AttributeError, w)
  | Some false => (Ok tt, w)
  | Some true =>
      match fuel with
      | O => (Unfinished, w)
      | S fuel' => (monitor_cycle log_file ;; monitor_loop fuel' log_file) w
      end
  end.

Definition interrupted_text : string := String LF "⚠️ 用戶中斷".
Definition saved_text (log_file : string) : string :=
  "✅ 通話記錄已保存: " ++ path_str log_file.

(** The [try] suite of [_monitor_call] with its [except KeyboardInterrupt]
    clause: Ctrl+C ends the loop without an error, any other exception
    passes through. *)
Definition monitor_try (fuel : nat) (log_file : string) : M unit :=
  try_except (monitor_loop fuel log_file)
    (fun e => match e with
              | KeyboardInterrupt => print interrupted_text
              | _ => raise e
              end).

(** The [finally] suite of [_monitor_call]. *)
Definition monitor_finally (log_file : string) : M unit :=
  hangup ;; print (saved_text log_file).

(** [_monitor_call(log_file, number, call_type)] *)
Definition _monitor_call (fuel : nat) (log_file number call_type : string) : M unit :=
  print ("📝 正在記錄通話到: " ++ path_str log_file) ;;
  print "💬 對話內容 (Ctrl+C 結束通話):" ;;
  try_finally (monitor_try fuel log_file) (monitor_finally log_file).

(** [make_call(phone_number)] *)
Definition make_call (fuel : nat) (phone_number : string) : M bool :=
  print ("📞 緊打去 " ++ phone_number ++ "...") ;;
  result <- send_at ("ATD" ++ phone_number ++ ";") 2000 ;;
  ok <- py_in "OK" result ;;
  call <- (if ok then ret true else py_in "CALL" result) ;;
  if call then
    print "✅ 正在通話中... (按 Ctrl+C 結束)" ;;
    (fun w => (Ok tt, set_active (Some true) w)) ;;
    log_file <- _create_log_file "outgoing" phone_number ;;
    time_sleep 2000 ;;
    _monitor_call fuel log_file phone_number "outgoing" ;;
    ret true
  else
    print ("❌ 打出失敗: " ++ match result with Some r => r | None => "None" end) ;;
    ret false.

(** [answer_call()] *)
Definition answer_call (fuel : nat) : M bool :=
  print "📞 正在接聽..." ;;
  result <- send_at "ATA" 1000 ;;
  ok <- py_in "OK" result ;;
  if ok then
    print "✅ 已接聽！開始對話..." ;;
    (fun w => (Ok tt, set_active (Some true) w)) ;;
    t <- datetime_now ;;
    let timestamp := strftime_compact t in
    let log_file := "incoming_" ++ timestamp ++ ".txt" in
    _monitor_call fuel log_file "incoming" "incoming" ;;
    ret true
  else ret false.

(** [self.call_log_dir.glob("*.txt")]: the entries of the directory itself
    whose name ends in [.txt], in directory order. *)
Definition glob_txt (d : Dir) : Dir :=
  filter (fun e => negb (contains "/" (fst e)) && ends_with ".txt" (fst e)) d.

(** [sorted(..., key=os.path.getmtime, reverse=True)]: newest first, and
    entries of equal time keep their order (Python's sort is stable, also
    under [reverse]). *)
Fixpoint insert_newest_first (e : string * File) (l : Dir) : Dir :=
  match l with
  | [] => [e]
  | x :: l' =>
      if (mtime (snd x) <=? mtime (snd e))%Z then e :: l
      else x :: insert_newest_first e l'
  end.

Definition sorted_newest_first (d : Dir) : Dir :=
  fold_right insert_newest_first [] d.

(** The body of [for log in logs[:10]].  The file is opened with
    [encoding='utf-8'] and the default strict error handling, so
    [f.readlines()] raises [UnicodeDecodeError] on bytes that are not UTF-8,
    before anything is printed for the file. *)
Definition show_log (e : string * File) : M unit :=
  if valid_utf8 (content (snd e)) then
    let lines := readlines (content (snd e)) in
    print (String LF "📄 " ++ fst e) ;;
    match lines with
    | [] => ret tt
    | l0 :: _ =>
        print ("   " ++ strip l0) ;;
        match nth_error lines 1 with
        | Some l1 => print ("   " ++ strip l1)
        | None => raise IndexError
        end
    end
  else raise UnicodeDecodeError.

Fixpoint show_logs (logs : Dir) : M unit :=
  match logs with
  | [] => ret tt
  | e :: rest => show_log e ;; show_logs rest
  end.

(** [list_call_logs()] *)
Definition list_call_logs : M unit :=
  print (String LF "=== 通話記錄 ===") ;;
  d <- (fun w => (Ok (fs w), w)) ;;
  let logs := sorted_newest_first (glob_txt d) in
  match logs with
  | [] => print "暫無記錄"
  | _ => show_logs (firstn 10 logs)
  end.

(** [close()].  pyserial's [close] leaves the object in place with its
    port shut: a later [write] raises [PortNotOpenError], a
    [SerialException], which is what [alive = false] stands for here.
    [self.ser] is not reset to [None]. *)
Definition close : M unit := fun w =>
  match ser w with
  | None => (Ok tt, w)
  | Some c =>
      print "✅ 已斷開連接"
        (set_ser (Some {| rx := rx c; tx := tx c; alive := false |}) w)
  end.

End SIM7600Controller.

Import SIM7600Controller.

(** ** Observations and scenarios *)

(** How often [hangup()] has been entered: its first statement prints the
    hang-up banner, and nothing else prints that line. *)
Definition hangups (w : World) : nat :=
  count_occ string_dec (out w) hangup_banner.

(** The world in which [_monitor_call] has printed its two opening lines. *)
Definition monitor_entered (log_file : string) (w : World) : World :=
  snd ((print ("📝 正在記錄通話到: " ++ path_str log_file) ;;
        print "💬 對話內容 (Ctrl+C 結束通話):") w).

Definition poll_line : string := "AT+CPAS" ++ CRLF.
Definition hangup_line : string := "ATH" ++ CRLF.

Definition afternoon : Clock :=
  {| epoch := 1709993107; local := DateTime 2024 3 9 14 5 7 |}.

Definition open_port : Channel := {| rx := ""; tx := []; alive := true |}.

(** A session after a successful [connect()], still idle. *)
Definition connected (sc : list Event) : World :=
  {| ser := Some open_port; call_active := None; fs := []; out := [];
     now := afternoon; script := sc |}.

(** A session on which [connect()] was never run or failed. *)
Definition unconnected : World :=
  {| ser := None; call_active := None; fs := []; out := [];
     now := afternoon; script := [] |}.

(** A connected session with a call in progress. *)
Definition in_call (sc : list Event) : World :=
  set_active (Some true) (connected sc).

(** Everything written to the serial port so far, oldest first. *)
Definition written (w : World) : list string :=
  match ser w with
  | Some c => tx c
  | None => []
  end.

(** The world after a command was written to the open port [c], the
    sleep that followed brought the event [e], and the reply was read. *)
Definition exchanged (line : string) (c : Channel) (e : Event) (es : list Event)
    (w : World) : World :=
  {| ser := Some {| rx := ""; tx := tx c ++ [line]; alive := true |};
     call_active := call_active w; fs := fs w; out := out w;
     now := match clock e with Some t => t | None => now w end;
     script := es |}.

(** The world in which [make_call] has announced the number it dials. *)
Definition dial_announced (number : string) (w : World) : World :=
  snd (print ("📞 緊打去 " ++ number ++ "...") w).

(** The world in which [answer_call] has announced itself. *)
Definition answer_announced (w : World) : World :=
  snd (print "📞 正在接聽..." w).


(** [grown_at p d d']: the directory [d'] is [d] except that the file at
    [p], if [d] has one, may have had text appended. *)
Definition grown_at (p : string) (d d' : Dir) : Prop :=
  (forall q, q <> p -> fs_lookup q d' = fs_lookup q d)
  /\ (forall f, fs_lookup p d = Some f ->
        exists f' body, fs_lookup p d' = Some f' /\ content f' = content f ++ body).

(** [appends_only p m]: whatever [m] does to the directory is an append to
    the file at [p]. *)
Definition appends_only {A} (p : string) (m : M A) : Prop :=
  forall w, grown_at p (fs w) (fs (snd (m w))).

(** A text without a line break (LF or CR). *)
Fixpoint one_line (s : string) : bool :=
  match s with
  | "" => true
  | String c t => negb (Ascii.eqb c LF) && negb (Ascii.eqb c CR) && one_line t
  end.

(** The name [_create_log_file] gives the log of an outgoing call. *)
Definition outgoing_log (number : string) (d : datetime) : string :=
  "outgoing_" ++ number ++ "_" ++ strftime_compact d ++ ".txt".

(** The name [answer_call] gives the log of an incoming call. *)
Definition incoming_log (d : datetime) : string :=
  "incoming_" ++ strftime_compact d ++ ".txt".

(** The number of lines [readlines()] finds in a file. *)
Definition line_count (e : string * File) : nat :=
  List.length (readlines (content (snd e))).









(** A call in progress whose first poll is answered "+CPAS: 4". *)
Definition remote_hung_up : World := in_call [reply "+CPAS: 4"; silence].

(** A call in progress: three polls answered "0", the fourth "+CPAS: 4",
    then the reply to [ATH]. *)
Definition three_zeros_then_four : World :=
  in_call [reply "0"; silence; reply "0"; silence; reply "0"; silence;
           reply "+CPAS: 4"; silence; reply "OK"].


(** A dial command the modem refuses. *)
Definition dial_refused : World := connected [reply "NO CARRIER"].

(** A dial command the modem accepts; the remote party rings once and the
    second poll shows the end of the call. *)
Definition dial_accepted : World :=
  connected [reply ("OK" ++ CRLF); silence; reply "+CPAS: 0"; reply "RING";
             reply "+CPAS: 4"; silence; reply "OK"].

(** An incoming call that is answered; the line stays silent until the
    first poll shows the end of the call. *)
Definition answered_silent : World :=
  connected [reply "OK"; reply "+CPAS: 4"; silence; reply "OK"].

(** An incoming call that is answered; one line of text arrives before the
    call ends. *)
Definition answered_ringing : World :=
  connected [reply "OK"; reply "+CPAS: 0"; reply "RING"; reply "+CPAS: 4";
             silence; reply "OK"].

(** A call in progress during which Ctrl+C is pressed twice: once in the
    loop and once more while [hangup()] waits for the modem. *)
Definition interrupted_twice : World := in_call [ctrl_c; ctrl_c].

(** A call in progress during which the link is lost. *)
Definition unplugged_call : World := in_call [unplug].

(** A signal query answered with an rssi outside 0..31 that is not 99. *)
Definition signal_fifty : World := connected [reply "+CSQ: 50,0"].

(** A signal query answered in Arabic-Indic digits: rssi 23, ber 0. *)
Definition signal_arabic_indic : World := connected [reply "+CSQ: ٢٣,٠"].

(** U+00A0, the no-break space. *)
Definition no_break_space : string := String "194"%char (String "160"%char "").

(** A signal query answered with an rssi of 4301 digits: a one and 4300
    zeros. *)
Definition signal_overlong : World :=
  connected [reply ("+CSQ: 1" ++ zeros 4300 ++ ",0")].

(** A call in progress whose poll is answered with a no-break space. *)
Definition polled_no_break_space : World := in_call [reply no_break_space; silence].

(** A signal query answered with rssi 23. *)
Definition signal_twenty_three : World :=
  connected [reply ("+CSQ: 23,99" ++ CRLF ++ CRLF ++ "OK")].


(** [points p s]: the text [s] is a sequence of code points, each of
    them satisfying [p]. *)
Inductive points (p : N -> bool) : string -> Prop :=
| points_nil : points p ""
| points_cons cp ch ws :
    decode_char ch = Some (cp, ch, "") -> p cp = true -> points p ws ->
    points p (ch ++ ws).


(** An answer the modem turns down with a text that would pass for a dial. *)
Definition answer_refused : World := connected [reply "NO CALL"].


(** A call in progress on a line that stays silent for good. *)
Definition silent_call : World := in_call [].

(** An idle session with an unsolicited "RING" already in the buffer. *)
Definition ring_buffered : World :=
  set_ser (Some {| rx := "RING" ++ CRLF; tx := []; alive := true |})
    (connected [reply ("+CSQ: 23,99" ++ CRLF)]).


(** [preserves f m]: running [m] does not change the component [f] of the
    world, however [m] ends. *)
Definition preserves {X A} (f : World -> X) (m : M A) : Prop :=
  forall w, f (snd (m w)) = f w.

(** * Properties *)

(** ** What each operation leaves alone *)

Lemma preserves_ret {X A} (f : World -> X) (a : A) : preserves f (ret a).
Proof. intro w. reflexivity. Qed.

Lemma preserves_raise {X A} (f : World -> X) (e : exn) : preserves f (@raise A e).
Proof. intro w. reflexivity. Qed.

Lemma preserves_bind {X A B} (f : World -> X) (m : M A) (k : A -> M B) :
  preserves f m -> (forall a, preserves f (k a)) -> preserves f (bind m k).
Proof.
  intros Hm Hk w. unfold bind.
  specialize (Hm w).
  destruct (m w) as [[a | e |] w1]; simpl in *; try assumption.
  rewrite Hk. assumption.
Qed.

Lemma preserves_if {X A} (f : World -> X) (b : bool) (m1 m2 : M A) :
  preserves f m1 -> preserves f m2 -> preserves f (if b then m1 else m2).
Proof. destruct b; auto. Qed.

Create HintDb frame.
#[local] Hint Resolve preserves_ret preserves_raise preserves_bind preserves_if : frame.

Ltac frame_prim :=
  let w := fresh "w" in
  intro w;
  unfold print, time_sleep, ser_write, ser_in_waiting, ser_read, datetime_now,
    write_file, append_file, set_ser, set_out, set_fs, set_active;
  repeat match goal with
         | |- context [match ?x with _ => _ end] => destruct x
         end; reflexivity.

Lemma print_active s : preserves call_active (print s).
Proof. frame_prim. Qed.
Lemma print_fs s : preserves fs (print s).
Proof. frame_prim. Qed.
Lemma print_ser s : preserves ser (print s).
Proof. frame_prim. Qed.
Lemma print_script s : preserves script (print s).
Proof. frame_prim. Qed.

Lemma sleep_active ms : preserves call_active (time_sleep ms).
Proof. frame_prim. Qed.
Lemma sleep_fs ms : preserves fs (time_sleep ms).
Proof. frame_prim. Qed.
Lemma sleep_out ms : preserves out (time_sleep ms).
Proof. frame_prim. Qed.

Lemma write_active d : preserves call_active (ser_write d).
Proof. frame_prim. Qed.
Lemma write_fs d : preserves fs (ser_write d).
Proof. frame_prim. Qed.
Lemma write_out d : preserves out (ser_write d).
Proof. frame_prim. Qed.

Lemma in_waiting_active : preserves call_active ser_in_waiting.
Proof. frame_prim. Qed.
Lemma in_waiting_fs : preserves fs ser_in_waiting.
Proof. frame_prim. Qed.
Lemma in_waiting_out : preserves out ser_in_waiting.
Proof. frame_prim. Qed.

Lemma read_active n : preserves call_active (ser_read n).
Proof. frame_prim. Qed.
Lemma read_fs n : preserves fs (ser_read n).
Proof. frame_prim. Qed.
Lemma read_out n : preserves out (ser_read n).
Proof. frame_prim. Qed.

Lemma now_active : preserves call_active datetime_now.
Proof. frame_prim. Qed.
Lemma now_fs : preserves fs datetime_now.
Proof. frame_prim. Qed.
Lemma now_out : preserves out datetime_now.
Proof. frame_prim. Qed.

Lemma append_active p t : preserves call_active (append_file p t).
Proof. frame_prim. Qed.
Lemma write_file_active p t : preserves call_active (write_file p t).
Proof. frame_prim. Qed.
Lemma append_out p t : preserves out (append_file p t).
Proof. frame_prim. Qed.
Lemma write_file_out p t : preserves out (write_file p t).
Proof. frame_prim. Qed.

#[local] Hint Resolve print_active print_fs print_ser print_script
  sleep_active sleep_fs sleep_out write_active write_fs write_out
  in_waiting_active in_waiting_fs in_waiting_out read_active read_fs read_out
  now_active now_fs now_out append_active write_file_active
  append_out write_file_out : frame.

Ltac frame_auto :=
  repeat first
    [ apply preserves_bind; [ | intro ]
    | apply preserves_if
    | match goal with
      | |- preserves _ (match ?x with _ => _ end) => destruct x
      end
    | solve [ auto with frame ] ].

Lemma read_response_active : preserves call_active read_response.
Proof. unfold read_response. frame_auto. Qed.
Lemma read_response_fs : preserves fs read_response.
Proof. unfold read_response. frame_auto. Qed.
Lemma read_response_out : preserves out read_response.
Proof. unfold read_response. frame_auto. Qed.
#[local] Hint Resolve read_response_active read_response_fs read_response_out : frame.

Lemma send_at_active cmd wait : preserves call_active (send_at cmd wait).
Proof.
  intro w. unfold send_at. destruct (ser w).
  - revert w. change (preserves call_active
      (ser_write (cmd ++ CRLF) ;; time_sleep wait ;;
       response <- read_response ;; ret (Some (strip response)))).
    frame_auto.
  - reflexivity.
Qed.

Lemma send_at_fs cmd wait : preserves fs (send_at cmd wait).
Proof.
  intro w. unfold send_at. destruct (ser w).
  - revert w. change (preserves fs
      (ser_write (cmd ++ CRLF) ;; time_sleep wait ;;
       response <- read_response ;; ret (Some (strip response)))).
    frame_auto.
  - reflexivity.
Qed.
#[local] Hint Resolve send_at_active send_at_fs : frame.

Lemma drain_incoming_active log : preserves call_active (drain_incoming log).
Proof.
  intro w. unfold drain_incoming. destruct (ser w); [ | reflexivity ].
  revert w.
  match goal with |- forall w, call_active (snd (?m w)) = _ => change (preserves call_active m) end.
  frame_auto.
Qed.
#[local] Hint Resolve drain_incoming_active : frame.

(** ** The monitoring loop, one cycle at a time *)

Lemma time_sleep_finishes ms w : fst (time_sleep ms w) <> Unfinished.
Proof.
  unfold time_sleep. destruct (script w) as [ | e es]; simpl; [ discriminate | ].
  destruct (signal e); simpl; discriminate.
Qed.

Lemma monitor_cycle_after_poll log_file w w1 result w2 :
  drain_incoming log_file w = (Ok tt, w1) ->
  send_at "AT+CPAS" 500 w1 = (Ok result, w2) ->
  monitor_cycle log_file w = (judge_status result ;; time_sleep 500) w2.
Proof.
  intros Hd Hs. unfold monitor_cycle.
  unfold bind at 1. rewrite Hd.
  unfold bind at 1. rewrite Hs. reflexivity.
Qed.

Lemma monitor_loop_step fuel log_file w :
  call_active w = Some true ->
  monitor_loop (S fuel) log_file w
  = (monitor_cycle log_file ;; monitor_loop fuel log_file) w.
Proof. intro H. simpl. rewrite H. reflexivity. Qed.

Lemma monitor_loop_paused log_file w :
  call_active w = Some true -> monitor_loop 0 log_file w = (Unfinished, w).
Proof. intro H. simpl. rewrite H. reflexivity. Qed.

Lemma monitor_loop_idle fuel log_file w :
  call_active w = Some false -> monitor_loop fuel log_file w = (Ok tt, w).
Proof. intro H. destruct fuel; simpl; rewrite H; reflexivity. Qed.

(** C1. In a cycle of the monitoring loop entered with the active-call flag
    set, let [result] be what the [AT+CPAS] poll returns.  If [result] is a
    non-empty string without the character '0', the flag is cleared and the
    loop ends with this cycle (it runs no further cycle).  If [result] is
    absent, empty or contains '0', the flag stays set and the loop goes on
    with the next cycle. *)
Theorem monitor_cycle_hangup_detection :
  forall (log_file : string) (w w1 w2 : World) (result : option string),
    call_active w = Some true ->
    drain_incoming log_file w = (Ok tt, w1) ->
    send_at "AT+CPAS" 500 w1 = (Ok result, w2) ->
    (forall r, result = Some r -> r <> "" -> contains "0" r = false ->
       call_active (snd (monitor_cycle log_file w)) = Some false
       /\ fst (monitor_cycle log_file w) <> Unfinished
       /\ forall fuel,
            monitor_loop (S fuel) log_file w = monitor_cycle log_file w)
    /\
    ((result = None \/ result = Some ""
      \/ exists r, result = Some r /\ contains "0" r = true) ->
     forall w3, time_sleep 500 w2 = (Ok tt, w3) ->
       monitor_cycle log_file w = (Ok tt, w3)
       /\ call_active w3 = Some true
       /\ forall fuel,
            monitor_loop (S fuel) log_file w = monitor_loop fuel log_file w3).
Proof.
  intros log_file w w1 w2 result Hact Hd Hs.
  assert (Hw1 : call_active w1 = Some true).
  { pose proof (drain_incoming_active log_file w) as H.
    rewrite Hd in H. simpl in H. congruence. }
  assert (Hw2 : call_active w2 = Some true).
  { pose proof (send_at_active "AT+CPAS" 500%N w1) as H.
    rewrite Hs in H. simpl in H. congruence. }
  pose proof (monitor_cycle_after_poll log_file w w1 result w2 Hd Hs) as Hcyc.
  split.
  - intros r -> Hne H0.
    assert (Hj : judge_status (Some r) w2
                 = (Ok tt, set_active (Some false)
                             (set_out (out w2 ++ [remote_hangup_text]) w2))).
    { unfold judge_status. rewrite H0.
      destruct r as [ | c r']; [ congruence | reflexivity ]. }
    assert (Hc : monitor_cycle log_file w
                 = time_sleep 500
                     (set_active (Some false)
                        (set_out (out w2 ++ [remote_hangup_text]) w2))).
    { rewrite Hcyc. unfold bind. rewrite Hj. reflexivity. }
    assert (Hflag : call_active (snd (monitor_cycle log_file w)) = Some false).
    { rewrite Hc, sleep_active. reflexivity. }
    split; [ exact Hflag | ].
    split; [ rewrite Hc; apply time_sleep_finishes | ].
    intro fuel. rewrite monitor_loop_step by assumption.
    unfold bind.
    destruct (monitor_cycle log_file w) as [[[] | e | ] w'] eqn:E;
      try reflexivity.
    simpl in Hflag. apply monitor_loop_idle. assumption.
  - intros Hres w3 Hsl.
    assert (Hj : judge_status result w2 = (Ok tt, w2)).
    { destruct Hres as [-> | [-> | [r [-> H0]]]]; try reflexivity.
      unfold judge_status. rewrite H0, andb_false_r. reflexivity. }
    assert (Hc : monitor_cycle log_file w = (Ok tt, w3)).
    { rewrite Hcyc. unfold bind. rewrite Hj. assumption. }
    assert (Hw3 : call_active w3 = Some true).
    { pose proof (sleep_active 500%N w2) as H.
      rewrite Hsl in H. simpl in H. congruence. }
    repeat split; try assumption.
    intro fuel. rewrite monitor_loop_step by assumption.
    unfold bind. rewrite Hc. reflexivity.
Qed.

(** ** Counting the calls of [hangup()] *)

Lemma preserves_out_hangups {A} (m : M A) : preserves out m -> preserves hangups m.
Proof. intros H w. unfold hangups. rewrite H. reflexivity. Qed.

Lemma print_hangups s : s <> hangup_banner -> preserves hangups (print s).
Proof.
  intros Hs w. unfold hangups, print. simpl.
  rewrite count_occ_app. simpl.
  destruct (string_dec s hangup_banner); [ contradiction | lia ].
Qed.

Lemma print_banner_hangups w :
  hangups (snd (print hangup_banner w)) = S (hangups w).
Proof.
  unfold hangups, print. simpl. rewrite count_occ_app. simpl.
  destruct (string_dec hangup_banner hangup_banner); [ lia | contradiction ].
Qed.

Lemma set_active_hangups b :
  preserves hangups (fun w => (Ok tt, set_active b w)).
Proof. intro w. reflexivity. Qed.

Lemma preserves_try_except {X A} (f : World -> X) (body : M A) (h : exn -> M A) :
  preserves f body -> (forall e, preserves f (h e)) ->
  preserves f (try_except body h).
Proof.
  intros Hb Hh w. unfold try_except. specialize (Hb w).
  destruct (body w) as [[a | e | ] w1]; simpl in *; try assumption.
  rewrite Hh. assumption.
Qed.

Lemma send_at_hangups cmd wait : preserves hangups (send_at cmd wait).
Proof.
  intro w. unfold send_at. destruct (ser w).
  - revert w.
    match goal with |- forall w, hangups (snd (?m w)) = _ => change (preserves hangups m) end.
    apply preserves_bind; [ apply preserves_out_hangups; auto with frame | intro ].
    apply preserves_bind; [ apply preserves_out_hangups; auto with frame | intro ].
    apply preserves_bind; [ apply preserves_out_hangups; auto with frame | intro ].
    apply preserves_ret.
  - revert w.
    match goal with |- forall w, hangups (snd (?m w)) = _ => change (preserves hangups m) end.
    apply preserves_bind; [ apply print_hangups; discriminate | intro; apply preserves_ret ].
Qed.

Lemma drain_incoming_hangups log : preserves hangups (drain_incoming log).
Proof.
  intro w. unfold drain_incoming. destruct (ser w); [ | reflexivity ].
  revert w.
  match goal with |- forall w, hangups (snd (?m w)) = _ => change (preserves hangups m) end.
  apply preserves_bind; [ apply preserves_out_hangups; auto with frame | intros [ | n] ].
  - apply preserves_ret.
  - apply preserves_bind; [ apply preserves_out_hangups; auto with frame | intro data ].
    apply preserves_if; [ | apply preserves_ret ].
    apply preserves_bind; [ apply print_hangups; discriminate | intro ].
    apply preserves_bind; [ apply preserves_out_hangups; auto with frame | intro ].
    apply preserves_out_hangups; auto with frame.
Qed.

Lemma judge_status_hangups result : preserves hangups (judge_status result).
Proof.
  destruct result as [r | ]; simpl; [ | apply preserves_ret ].
  apply preserves_if; [ | apply preserves_ret ].
  apply preserves_bind; [ apply print_hangups; discriminate | intro ].
  apply set_active_hangups.
Qed.

Lemma monitor_cycle_hangups log : preserves hangups (monitor_cycle log).
Proof.
  unfold monitor_cycle.
  apply preserves_bind; [ apply drain_incoming_hangups | intro ].
  apply preserves_bind; [ apply send_at_hangups | intro result ].
  apply preserves_bind; [ apply judge_status_hangups | intro ].
  apply preserves_out_hangups; auto with frame.
Qed.

Lemma monitor_loop_hangups fuel log : preserves hangups (monitor_loop fuel log).
Proof.
  induction fuel as [ | fuel IH]; intro w; simpl.
  - destruct (call_active w) as [[ | ] | ]; reflexivity.
  - destruct (call_active w) as [[ | ] | ]; try reflexivity.
    apply (preserves_bind hangups); [ apply monitor_cycle_hangups | intro; exact IH ].
Qed.

Lemma monitor_try_hangups fuel log : preserves hangups (monitor_try fuel log).
Proof.
  unfold monitor_try. apply preserves_try_except.
  - apply monitor_loop_hangups.
  - intros []; try apply preserves_raise. apply print_hangups. discriminate.
Qed.

Lemma monitor_entered_hangups log w : hangups (monitor_entered log w) = hangups w.
Proof.
  unfold monitor_entered.
  apply (preserves_bind hangups); [ | intro ]; apply print_hangups; discriminate.
Qed.

(** One call of [hangup()] prints its banner once, however the call ends. *)
Lemma hangup_hangups w : hangups (snd (hangup w)) = S (hangups w).
Proof.
  unfold hangup. unfold bind at 1.
  change (print hangup_banner w) with (@Ok unit tt, snd (print hangup_banner w)).
  cbv iota beta.
  rewrite <- print_banner_hangups.
  generalize (snd (print hangup_banner w)).
  match goal with |- forall w0, hangups (snd (?m w0)) = _ => change (preserves hangups m) end.
  apply preserves_bind; [ apply send_at_hangups | intro result ].
  apply preserves_bind; [ apply set_active_hangups | intro ].
  destruct result; [ apply preserves_ret | apply preserves_raise ].
Qed.

(** [finishes m]: [m] ends with a value or an exception; only the
    monitoring loop can be cut short. *)
Lemma finishes_bind {A B} (m : M A) (k : A -> M B) :
  (forall w, fst (m w) <> Unfinished) ->
  (forall a w, fst (k a w) <> Unfinished) ->
  forall w, fst (bind m k w) <> Unfinished.
Proof.
  intros Hm Hk w. unfold bind. specialize (Hm w).
  destruct (m w) as [[a | e | ] w1]; simpl in *;
    [ apply Hk | discriminate | congruence ].
Qed.

Ltac finishes_prim :=
  let w := fresh "w" in
  intro w;
  unfold print, time_sleep, ser_write, ser_in_waiting, ser_read, datetime_now,
    write_file, append_file, ret, raise;
  repeat match goal with
         | |- context [match ?x with _ => _ end] => destruct x
         end; simpl; discriminate.

Lemma send_at_finishes cmd wait w : fst (send_at cmd wait w) <> Unfinished.
Proof.
  unfold send_at. destruct (ser w).
  - revert w. apply finishes_bind; [ finishes_prim | intros _ ].
    apply finishes_bind; [ finishes_prim | intros _ ].
    apply finishes_bind; [ | intros r; finishes_prim ].
    unfold read_response.
    apply finishes_bind; [ finishes_prim | intros [ | n] ]; [ finishes_prim | ].
    apply finishes_bind; [ finishes_prim | intros d; finishes_prim ].
  - discriminate.
Qed.

Lemma hangup_finishes w : fst (hangup w) <> Unfinished.
Proof.
  revert w. unfold hangup.
  apply finishes_bind; [ finishes_prim | intros _ ].
  apply finishes_bind; [ intro; apply send_at_finishes | intros result ].
  apply finishes_bind; [ intro; simpl; discriminate | intros _ ].
  destruct result; finishes_prim.
Qed.

Lemma monitor_call_unfold fuel log number call_type w :
  _monitor_call fuel log number call_type w
  = try_finally (monitor_try fuel log) (monitor_finally log) (monitor_entered log w).
Proof. reflexivity. Qed.

(** What the [finally] suite does after [hangup()]: it prints the location
    of the log exactly when [hangup()] returned. *)
Lemma monitor_finally_result log w1 :
  match hangup w1 with
  | (Ok _, w2) =>
      monitor_finally log w1 = (Ok tt, set_out (out w2 ++ [saved_text log]) w2)
  | (Raise e, w2) => monitor_finally log w1 = (Raise e, w2)
  | (Unfinished, w2) => monitor_finally log w1 = (Unfinished, w2)
  end.
Proof.
  unfold monitor_finally, bind. destruct (hangup w1) as [[b | e | ] w2]; reflexivity.
Qed.

Lemma monitor_call_hangups fuel log number call_type w :
  fst (monitor_try fuel log (monitor_entered log w)) <> Unfinished ->
  hangups (snd (_monitor_call fuel log number call_type w)) = S (hangups w).
Proof.
  intro Hexit. rewrite monitor_call_unfold. unfold try_finally.
  pose proof (monitor_try_hangups fuel log (monitor_entered log w)) as Hloop.
  rewrite monitor_entered_hangups in Hloop.
  destruct (monitor_try fuel log (monitor_entered log w)) as [r1 w1].
  simpl in Hexit, Hloop.
  assert (Hfin : hangups (snd (monitor_finally log w1)) = S (hangups w)).
  { pose proof (monitor_finally_result log w1) as Hf.
    pose proof (hangup_hangups w1) as Hh.
    destruct (hangup w1) as [[b | e | ] w2]; rewrite Hf; simpl in *.
    - unfold hangups in *. simpl. rewrite count_occ_app. simpl.
      destruct (string_dec (saved_text log) hangup_banner) as [E | _];
        [ discriminate E | lia ].
    - lia.
    - lia. }
  destruct r1 as [[] | e | ]; [ | | congruence ];
    destruct (monitor_finally log w1) as [[[] | e' | ] w2]; simpl in *; assumption.
Qed.

(** C8, as the code has it.  Whenever the monitoring loop is left (the
    remote party hung up, Ctrl+C was pressed, or an error was raised in the
    loop body), [hangup()] is entered exactly once; and when that call of
    [hangup()] returns, the location of the log is the next and last line
    printed and [_monitor_call] ends as the loop did.  When [hangup()] itself
    raises, [_monitor_call] ends with that exception where [hangup()]
    stopped, and the location is not printed. *)
Theorem monitor_call_always_hangs_up :
  forall (fuel : nat) (log number call_type : string) (w : World),
    fst (monitor_try fuel log (monitor_entered log w)) <> Unfinished ->
    let w1 := snd (monitor_try fuel log (monitor_entered log w)) in
    let w' := snd (_monitor_call fuel log number call_type w) in
    hangups w' = S (hangups w)
    /\ hangups w1 = hangups w
    /\ match hangup w1 with
       | (Ok _, w2) =>
           out w' = (out w2 ++ [saved_text log])%list
           /\ fst (_monitor_call fuel log number call_type w)
              = fst (monitor_try fuel log (monitor_entered log w))
       | (Raise e, w2) =>
           w' = w2
           /\ fst (_monitor_call fuel log number call_type w) = Raise e
       | (Unfinished, _) => False
       end.
Proof.
  intros fuel log number call_type w Hexit w1 w'.
  split; [ apply monitor_call_hangups; assumption | ].
  split.
  { unfold w1. rewrite monitor_try_hangups. apply monitor_entered_hangups. }
  unfold w', w1. rewrite monitor_call_unfold. unfold try_finally.
  destruct (monitor_try fuel log (monitor_entered log w)) as [r1 v1].
  simpl in Hexit. simpl snd.
  pose proof (monitor_finally_result log v1) as Hf.
  pose proof (hangup_finishes v1) as Hh.
  destruct (hangup v1) as [[b | e | ] w2]; simpl in Hh; [ | | congruence ];
    rewrite Hf; destruct r1 as [[] | e1 | ]; try congruence; simpl; auto.
Qed.

(** ** A command and its reply on an open port *)

Lemma substring_all s : substring 0 (String.length s) s = s.
Proof. induction s as [ | c s IH]; simpl; [ reflexivity | rewrite IH; reflexivity ]. Qed.

Lemma substring_none s : substring (String.length s) 0 s = "".
Proof. induction s as [ | c s IH]; simpl; [ reflexivity | exact IH ]. Qed.

Lemma append_empty_r s : s ++ "" = s.
Proof. induction s as [ | c s IH]; simpl; [ reflexivity | rewrite IH; reflexivity ]. Qed.

(** With the port open and the link up, a command whose sleep is not
    interrupted returns everything that was waiting or arrived, stripped.
    Past the end of the script nothing happens during a sleep. *)
Lemma send_at_reply cmd wait w c :
  ser w = Some c -> alive c = true ->
  signal (hd silence (script w)) = NoSignal ->
  send_at cmd wait w
  = (Ok (Some (strip (rx c ++ arrives (hd silence (script w))))),
     exchanged (cmd ++ CRLF) c (hd silence (script w)) (tl (script w)) w).
Proof.
  intros Hs Ha Hsig.
  destruct w as [s a f o n sc]; simpl in *; subst.
  destruct c as [r t al]; simpl in *; subst.
  unfold send_at, bind, ser_write, time_sleep, read_response, bind,
    ser_in_waiting, ser_read, ret, exchanged; simpl.
  destruct sc as [ | e es]; simpl in *.
  - rewrite append_empty_r.
    destruct r as [ | ch s']; simpl; [ reflexivity | ].
    rewrite substring_all, Nat.sub_diag, substring_none. reflexivity.
  - rewrite Hsig; unfold deliver; simpl.
    destruct (r ++ arrives e) as [ | ch s'] eqn:E; simpl; [ reflexivity | ].
    rewrite substring_all, Nat.sub_diag, substring_none. reflexivity.
Qed.

Lemma send_at_exchange cmd wait w c e es :
  ser w = Some c -> alive c = true ->
  script w = e :: es -> signal e = NoSignal ->
  send_at cmd wait w
  = (Ok (Some (strip (rx c ++ arrives e))), exchanged (cmd ++ CRLF) c e es w).
Proof.
  intros Hs Ha Hsc Hsig.
  rewrite (send_at_reply cmd wait w c Hs Ha); rewrite Hsc; simpl; auto.
Qed.







(** ** Dialling *)

Lemma make_call_after_dial fuel number w result w1 :
  send_at ("ATD" ++ number ++ ";") 2000 (dial_announced number w) = (Ok result, w1) ->
  make_call fuel number w
  = (ok <- py_in "OK" result ;;
     call <- (if ok then ret true else py_in "CALL" result) ;;
     if call then
       print "✅ 正在通話中... (按 Ctrl+C 結束)" ;;
       (fun w => (Ok tt, set_active (Some true) w)) ;;
       log_file <- _create_log_file "outgoing" number ;;
       time_sleep 2000 ;;
       _monitor_call fuel log_file number "outgoing" ;;
       ret true
     else
       print ("❌ 打出失敗: " ++ match result with Some r => r | None => "None" end) ;;
       ret false) w1.
Proof.
  intro H. unfold make_call. unfold bind at 1.
  change (print ("📞 緊打去 " ++ number ++ "...") w)
    with (@Ok unit tt, dial_announced number w).
  cbv iota beta. unfold bind at 1. rewrite H. reflexivity.
Qed.

(** C5. When the reply to the dial command contains neither "OK" nor
    "CALL", [make_call] returns [False] after printing the failure line with
    the reply; the [call_logs] directory and the active-call flag are what
    they were (no log is created, no call is started). *)
Theorem make_call_rejected :
  forall (fuel : nat) (number r : string) (w w1 : World),
    send_at ("ATD" ++ number ++ ";") 2000 (dial_announced number w)
      = (Ok (Some r), w1) ->
    contains "OK" r = false ->
    contains "CALL" r = false ->
    make_call fuel number w
      = (Ok false, set_out (out w1 ++ ["❌ 打出失敗: " ++ r]) w1)
    /\ fs (snd (make_call fuel number w)) = fs w
    /\ call_active (snd (make_call fuel number w)) = call_active w.
Proof.
  intros fuel number r w w1 Hd Hok Hcall.
  assert (E : make_call fuel number w
              = (Ok false, set_out (out w1 ++ ["❌ 打出失敗: " ++ r]) w1)).
  { rewrite (make_call_after_dial fuel number w _ _ Hd).
    unfold bind, py_in, ret. rewrite Hok, Hcall. reflexivity. }
  rewrite E. simpl.
  pose proof (send_at_fs ("ATD" ++ number ++ ";") 2000%N (dial_announced number w)) as Hf.
  pose proof (send_at_active ("ATD" ++ number ++ ";") 2000%N (dial_announced number w)) as Hc.
  rewrite Hd in Hf, Hc. simpl in Hf, Hc.
  repeat split; assumption.
Qed.

(** ** The log of a call only grows *)

Lemma fs_lookup_put_same p f d : fs_lookup p (fs_put p f d) = Some f.
Proof.
  induction d as [ | [q g] d IH]; simpl.
  - rewrite String.eqb_refl. reflexivity.
  - destruct (String.eqb p q) eqn:E; simpl.
    + rewrite String.eqb_refl. reflexivity.
    + rewrite E. exact IH.
Qed.

Lemma fs_lookup_put_other p q f d :
  q <> p -> fs_lookup q (fs_put p f d) = fs_lookup q d.
Proof.
  intro Hne. induction d as [ | [q' g] d IH]; simpl.
  - destruct (String.eqb q p) eqn:E; [ apply String.eqb_eq in E; contradiction | reflexivity ].
  - destruct (String.eqb p q') eqn:E; simpl.
    + apply String.eqb_eq in E. subst q'.
      destruct (String.eqb q p) eqn:E'; [ apply String.eqb_eq in E'; contradiction | reflexivity ].
    + destruct (String.eqb q q'); [ reflexivity | exact IH ].
Qed.

Lemma grown_at_refl p d : grown_at p d d.
Proof.
  split; [ reflexivity | ].
  intros f H. exists f, "". split; [ assumption | ].
  symmetry. apply append_empty_r.
Qed.

Lemma string_app_assoc (a b c : string) : (a ++ b) ++ c = a ++ b ++ c.
Proof. induction a as [ | ch a IH]; simpl; [ reflexivity | rewrite IH; reflexivity ]. Qed.

Lemma grown_at_trans p d1 d2 d3 :
  grown_at p d1 d2 -> grown_at p d2 d3 -> grown_at p d1 d3.
Proof.
  intros [O1 G1] [O2 G2]. split.
  - intros q Hq. rewrite O2, O1; auto.
  - intros f Hf. destruct (G1 f Hf) as [f2 [b2 [L2 C2]]].
    destruct (G2 f2 L2) as [f3 [b3 [L3 C3]]].
    exists f3, (b2 ++ b3). split; [ assumption | ].
    rewrite C3, C2. apply string_app_assoc.
Qed.

Lemma appends_only_frame {A} p (m : M A) : preserves fs m -> appends_only p m.
Proof. intros H w. rewrite H. apply grown_at_refl. Qed.

Lemma appends_only_bind {A B} p (m : M A) (k : A -> M B) :
  appends_only p m -> (forall a, appends_only p (k a)) ->
  appends_only p (bind m k).
Proof.
  intros Hm Hk w. unfold bind. specialize (Hm w).
  destruct (m w) as [[a | e | ] w1]; simpl in *; try assumption.
  eapply grown_at_trans; [ exact Hm | apply Hk ].
Qed.

Lemma append_file_appends p text : appends_only p (append_file p text).
Proof.
  intro w. unfold append_file.
  destruct (open_error p); [ apply grown_at_refl | ].
  simpl. split.
  - intros q Hq. apply fs_lookup_put_other. assumption.
  - intros f Hf. rewrite Hf, fs_lookup_put_same.
    eexists. exists text. split; reflexivity.
Qed.

Lemma drain_incoming_appends log : appends_only log (drain_incoming log).
Proof.
  intro w. unfold drain_incoming. destruct (ser w); [ | apply grown_at_refl ].
  revert w.
  match goal with |- forall w, grown_at _ _ (fs (snd (?m w))) => change (appends_only log m) end.
  apply appends_only_bind; [ apply appends_only_frame; auto with frame | intros [ | n] ].
  - apply appends_only_frame; auto with frame.
  - apply appends_only_bind; [ apply appends_only_frame; auto with frame | intro data ].
    destruct (truthy data); [ | apply appends_only_frame; auto with frame ].
    apply appends_only_bind; [ apply appends_only_frame; auto with frame | intro ].
    apply appends_only_bind; [ apply appends_only_frame; auto with frame | intro ].
    apply append_file_appends.
Qed.

Lemma set_active_fs b : preserves fs (fun w => (Ok tt, set_active b w)).
Proof. intro w. reflexivity. Qed.

Lemma judge_status_fs result : preserves fs (judge_status result).
Proof.
  destruct result as [r | ]; simpl; [ | apply preserves_ret ].
  apply preserves_if; [ | apply preserves_ret ].
  apply preserves_bind; [ apply print_fs | intro; apply set_active_fs ].
Qed.

Lemma py_in_fs needle result : preserves fs (py_in needle result).
Proof. destruct result; [ apply preserves_ret | apply preserves_raise ]. Qed.

Lemma hangup_fs : preserves fs hangup.
Proof.
  unfold hangup.
  apply preserves_bind; [ apply print_fs | intro ].
  apply preserves_bind; [ apply send_at_fs | intro result ].
  apply preserves_bind; [ apply set_active_fs | intro ].
  apply py_in_fs.
Qed.

Lemma monitor_cycle_appends log : appends_only log (monitor_cycle log).
Proof.
  unfold monitor_cycle.
  apply appends_only_bind; [ apply drain_incoming_appends | intro ].
  apply appends_only_frame.
  apply preserves_bind; [ apply send_at_fs | intro result ].
  apply preserves_bind; [ apply judge_status_fs | intro; apply sleep_fs ].
Qed.

Lemma monitor_loop_appends fuel log : appends_only log (monitor_loop fuel log).
Proof.
  induction fuel as [ | fuel IH]; intro w; simpl.
  - destruct (call_active w) as [[ | ] | ]; apply grown_at_refl.
  - destruct (call_active w) as [[ | ] | ]; try apply grown_at_refl.
    apply (appends_only_bind log); [ apply monitor_cycle_appends | intro; exact IH ].
Qed.

Lemma monitor_call_appends fuel log number call_type :
  appends_only log (_monitor_call fuel log number call_type).
Proof.
  unfold _monitor_call.
  apply appends_only_bind; [ apply appends_only_frame, print_fs | intro ].
  apply appends_only_bind; [ apply appends_only_frame, print_fs | intro ].
  intro w. unfold try_finally.
  assert (Htry : appends_only log (monitor_try fuel log)).
  { intro v. unfold monitor_try, try_except.
    pose proof (monitor_loop_appends fuel log v) as H.
    destruct (monitor_loop fuel log v) as [[[] | e | ] v1]; simpl in *; try assumption.
    destruct e; simpl; assumption. }
  assert (Hfin : preserves fs (monitor_finally log)).
  { unfold monitor_finally.
    apply preserves_bind; [ apply hangup_fs | intro; apply print_fs ]. }
  specialize (Htry w).
  destruct (monitor_try fuel log w) as [r1 w1]. simpl in Htry.
  specialize (Hfin w1).
  destruct r1 as [[] | e | ]; [ | | assumption ];
    destruct (monitor_finally log w1) as [[[] | e' | ] w2];
    simpl in *; rewrite Hfin; assumption.
Qed.

Lemma readlines_from_line cur s rest :
  one_line s = true ->
  readlines_from cur (s ++ NL ++ rest) = (cur ++ s ++ NL) :: readlines_from "" rest.
Proof.
  revert cur. induction s as [ | c t IH]; intros cur H; simpl in *.
  - reflexivity.
  - apply andb_prop in H. destruct H as [H Ht].
    apply andb_prop in H. destruct H as [Hlf Hcr].
    apply negb_true_iff in Hlf. apply negb_true_iff in Hcr.
    rewrite Hlf, Hcr. rewrite IH by assumption.
    rewrite string_app_assoc. reflexivity.
Qed.

Lemma readlines_line s rest :
  one_line s = true ->
  readlines (s ++ NL ++ rest) = (s ++ NL) :: readlines rest.
Proof. intro H. unfold readlines. rewrite readlines_from_line by assumption. reflexivity. Qed.

Lemma header_text_lines call_type number d body :
  header_text call_type number d ++ body
  = banner_line ++ NL ++ direction_line call_type ++ NL ++ number_line number ++ NL
    ++ time_line d ++ NL ++ closing_line ++ NL ++ NL ++ body.
Proof.
  unfold header_text.
  repeat (rewrite string_app_assoc; simpl).
  reflexivity.
Qed.

Lemma one_line_app a b : one_line a = true -> one_line b = true -> one_line (a ++ b) = true.
Proof.
  intros Ha Hb. induction a as [ | c a IH]; simpl in *; [ assumption | ].
  apply andb_prop in Ha. destruct Ha as [Hc Ha]. rewrite Hc. simpl. auto.
Qed.

Lemma create_log_file_run call_type number w :
  _create_log_file call_type number w
  = let name := call_type ++ "_" ++ number ++ "_"
                ++ strftime_compact (local (now w)) ++ ".txt" in
    match open_error name with
    | Some e => (Raise e, w)
    | None =>
        (Ok name,
         set_fs (fs_put name
                   {| content := header_text call_type number (local (now w));
                      mtime := epoch (now w) |} (fs w)) w)
    end.
Proof.
  unfold _create_log_file, bind, datetime_now, write_file, ret. cbv zeta.
  destruct (open_error _); reflexivity.
Qed.

(** An accepted dial: what is left of [make_call] once the reply is in. *)
Lemma make_call_accepted fuel number r w w1 :
  send_at ("ATD" ++ number ++ ";") 2000 (dial_announced number w)
    = (Ok (Some r), w1) ->
  contains "OK" r || contains "CALL" r = true ->
  make_call fuel number w
  = (log_file <- _create_log_file "outgoing" number ;;
     time_sleep 2000 ;;
     _monitor_call fuel log_file number "outgoing" ;;
     ret true)
      (set_active (Some true)
         (set_out (out w1 ++ ["✅ 正在通話中... (按 Ctrl+C 結束)"]) w1)).
Proof.
  intros Hd Haff.
  rewrite (make_call_after_dial fuel number w _ _ Hd).
  unfold py_in. unfold bind at 1. unfold ret at 1.
  destruct (contains "OK" r); simpl in Haff.
  - reflexivity.
  - unfold bind at 1. unfold ret at 1. rewrite Haff. reflexivity.
Qed.

Lemma valid_name_open_error p : valid_name p = true -> open_error p = None.
Proof. unfold valid_name. destruct (open_error p); [ discriminate | reflexivity ]. Qed.

Lemma open_error_kind p e :
  open_error p = Some e -> e = ValueError \/ e = OSError.
Proof.
  unfold open_error.
  repeat match goal with
         | |- context [if ?b then _ else _] => destruct b
         end; intro H; inversion H; auto.
Qed.

(** C7, as the code has it.  Let the reply to the dial command contain "OK"
    or "CALL", and let [log] be the name [outgoing_<number>_<timestamp>.txt]
    the code composes.

    When the file system takes that name, [make_call] leaves every other
    path of [call_logs] as it was and the path [log] holds the five header
    lines followed by whatever the monitoring loop appended.  Its second
    line is the direction line ["類型: 打出"]; its third line is the number
    line, ["號碼: "] followed by the dialled number (a line of its own as
    soon as the number holds no line break).  If [make_call] returns, it
    returns [True].

    When the file system refuses the name (a slash or a NUL in the number,
    or a name past 255 bytes), [open] raises inside [_create_log_file]: the
    directory is as it was, so no log exists for the call; [make_call] ends
    with that [OSError] or [ValueError]; the active-call flag stays set and
    [hangup()] was not called. *)
Theorem make_call_creates_log :
  forall (fuel : nat) (number r : string) (w w1 : World),
    send_at ("ATD" ++ number ++ ";") 2000 (dial_announced number w)
      = (Ok (Some r), w1) ->
    contains "OK" r || contains "CALL" r = true ->
    let log := outgoing_log number (local (now w1)) in
    let d' := fs (snd (make_call fuel number w)) in
    (valid_name log = true ->
       (forall q, q <> log -> fs_lookup q d' = fs_lookup q (fs w))
       /\ (exists f d body,
             fs_lookup log d' = Some f
             /\ content f
                = "=== 通話記錄 ===" ++ NL
                  ++ "類型: 打出" ++ NL
                  ++ "號碼: " ++ number ++ NL
                  ++ time_line d ++ NL
                  ++ "==================" ++ NL ++ NL ++ body
             /\ nth_error (readlines (content f)) 1 = Some ("類型: 打出" ++ NL)
             /\ (one_line number = true ->
                 nth_error (readlines (content f)) 2
                 = Some ("號碼: " ++ number ++ NL)))
       /\ (forall b, fst (make_call fuel number w) = Ok b -> b = true))
    /\
    (valid_name log = false ->
       d' = fs w
       /\ (exists e, fst (make_call fuel number w) = Raise e
                     /\ (e = ValueError \/ e = OSError))
       /\ call_active (snd (make_call fuel number w)) = Some true
       /\ hangups (snd (make_call fuel number w)) = hangups w).
Proof.
  intros fuel number r w w1 Hd Haff log d'.
  set (w2 := set_active (Some true)
               (set_out (out w1 ++ ["✅ 正在通話中... (按 Ctrl+C 結束)"]) w1)).
  pose proof (make_call_accepted fuel number r w w1 Hd Haff) as E0.
  fold w2 in E0.
  assert (Hw1 : fs w1 = fs w).
  { pose proof (send_at_fs ("ATD" ++ number ++ ";") 2000%N (dial_announced number w)) as Hf.
    rewrite Hd in Hf. exact Hf. }
  pose proof (create_log_file_run "outgoing" number w2) as Hc0.
  cbv zeta in Hc0.
  change ("outgoing" ++ "_" ++ number ++ "_"
          ++ strftime_compact (local (now w2)) ++ ".txt") with log in Hc0.
  split.
  - intro Hv. apply valid_name_open_error in Hv. rewrite Hv in Hc0.
    set (hdr := {| content := header_text "outgoing" number (local (now w1));
                   mtime := epoch (now w1) |}).
    set (w3 := set_fs (fs_put log hdr (fs w1)) w2).
    set (rest := (time_sleep 2000 ;;
                  _monitor_call fuel log number "outgoing" ;; ret true) : M bool).
    assert (E : make_call fuel number w = rest w3).
    { rewrite E0. unfold bind at 1. rewrite Hc0. reflexivity. }
    assert (G : appends_only log rest).
    { unfold rest.
      apply appends_only_bind; [ apply appends_only_frame, sleep_fs | intro ].
      apply appends_only_bind; [ apply monitor_call_appends | intro ].
      apply appends_only_frame, preserves_ret. }
    destruct (G w3) as [Gother Glog].
    unfold d'. rewrite E. split; [ | split ].
    + intros q Hq. rewrite Gother by assumption.
      unfold w3. simpl. rewrite fs_lookup_put_other by assumption.
      rewrite Hw1. reflexivity.
    + destruct (Glog hdr) as [f [body [Hf Hc]]].
      { unfold w3. simpl. apply fs_lookup_put_same. }
      exists f, (local (now w1)), body. split; [ exact Hf | ].
      assert (Hc' : content f
               = "=== 通話記錄 ===" ++ NL ++ "類型: 打出" ++ NL ++ "號碼: " ++ number ++ NL
                 ++ time_line (local (now w1)) ++ NL
                 ++ "==================" ++ NL ++ NL ++ body).
      { rewrite Hc. unfold hdr. simpl content. apply header_text_lines. }
      split; [ exact Hc' | ].
      rewrite Hc'.
      rewrite readlines_line by reflexivity.
      rewrite readlines_line by reflexivity.
      split; [ reflexivity | ].
      intro Hn.
      change ("號碼: " ++ number ++ NL ++ time_line (local (now w1)) ++ NL
              ++ "==================" ++ NL ++ NL ++ body)
        with (("號碼: " ++ number) ++ NL ++ time_line (local (now w1)) ++ NL
              ++ "==================" ++ NL ++ NL ++ body).
      rewrite readlines_line by (apply one_line_app; [ reflexivity | assumption ]).
      reflexivity.
    + intros b Hb. unfold rest, bind in Hb.
      destruct (time_sleep 2000 w3) as [[[] | e | ] v1]; simpl in Hb; try discriminate.
      destruct (_monitor_call fuel log number "outgoing" v1) as [[[] | e | ] v2];
        simpl in Hb; try discriminate.
      unfold ret in Hb. simpl in Hb. congruence.
  - intro Hv. unfold valid_name in Hv.
    destruct (open_error log) as [e | ] eqn:He; [ clear Hv | discriminate ].
    assert (E : make_call fuel number w = (Raise e, w2)).
    { rewrite E0. unfold bind at 1. rewrite Hc0. reflexivity. }
    unfold d'. rewrite E. simpl.
    split; [ exact Hw1 | ].
    split; [ exists e; split; [ reflexivity | exact (open_error_kind _ _ He) ] | ].
    split; [ reflexivity | ].
    pose proof (send_at_hangups ("ATD" ++ number ++ ";") 2000%N
                  (dial_announced number w)) as Hh.
    rewrite Hd in Hh. simpl in Hh.
    unfold hangups in *. simpl.
    rewrite count_occ_app. simpl.
    rewrite Hh. unfold dial_announced, print. simpl.
    rewrite count_occ_app. simpl. lia.
Qed.

(** ** Hanging up *)



(** ** Operations without an open port *)

(** C3, the part the code has: without an open port [send_at] prints its
    "not connected" line and returns [None]; it writes nothing, sleeps for
    nothing and raises nothing; [get_signal] turns that into its fallback
    text.  The part the code misses: [hangup], [make_call] and [answer_call]
    test ["OK" in None] and end with an uncaught [TypeError]. *)
Theorem unconnected_operations :
  forall (fuel : nat) (number command : string) (wait : N) (w : World),
    ser w = None ->
    send_at command wait w = (Ok None, set_out (out w ++ ["❌ 未連接"]) w)
    /\ fst (get_signal w) = Ok unreadable_text
    /\ fst (hangup w) = Raise TypeError
    /\ fst (make_call fuel number w) = Raise TypeError
    /\ fst (answer_call fuel w) = Raise TypeError.
Proof.
  intros fuel number command wait w Hs.
  assert (Hsend : forall cmd wt v, ser v = None ->
            send_at cmd wt v = (Ok None, set_out (out v ++ ["❌ 未連接"]) v)).
  { intros cmd wt v Hv. unfold send_at. rewrite Hv. reflexivity. }
  split; [ apply Hsend; assumption | ].
  split; [ unfold get_signal, bind; rewrite Hsend by assumption; reflexivity | ].
  split; [ unfold hangup, bind, print; rewrite Hsend by assumption; reflexivity | ].
  split.
  - unfold make_call, bind, print. rewrite Hsend by assumption. reflexivity.
  - unfold answer_call, bind, print. rewrite Hsend by assumption. reflexivity.
Qed.

(** ** Answering *)

(** C4, what the code does instead.  When the reply to [ATA] contains "OK",
    [answer_call] sets the flag, computes the name of the log and enters
    [_monitor_call] with the [call_logs] directory exactly as it found it:
    [_create_log_file] is not called and no header is written. *)
Theorem answer_call_writes_no_header :
  forall (fuel : nat) (r : string) (w w1 : World),
    send_at "ATA" 1000 (answer_announced w) = (Ok (Some r), w1) ->
    contains "OK" r = true ->
    let log := incoming_log (local (now w1)) in
    let w2 := set_active (Some true)
                (set_out (out w1 ++ ["✅ 已接聽！開始對話..."]) w1) in
    answer_call fuel w
      = (_monitor_call fuel log "incoming" "incoming" ;; ret true) w2
    /\ fs w2 = fs w
    /\ call_active w2 = Some true.
Proof.
  intros fuel r w w1 Hs Hok log w2.
  split; [ | split; [ | reflexivity ] ].
  - unfold answer_call. unfold bind at 1.
    change (print "📞 正在接聽..." w) with (@Ok unit tt, answer_announced w).
    cbv iota beta. unfold bind at 1. rewrite Hs.
    unfold py_in. unfold bind at 1. unfold ret at 1. rewrite Hok.
    reflexivity.
  - pose proof (send_at_fs "ATA" 1000%N (answer_announced w)) as Hf.
    rewrite Hs in Hf. exact Hf.
Qed.

(** ** The signal query *)

Lemma strip_prefix_prefix pre s x :
  strip_prefix pre s = Some x -> String.prefix pre s = true.
Proof.
  revert s. induction pre as [ | a pre IH]; intros s H.
  - destruct s; reflexivity.
  - destruct s as [ | b s]; simpl in *; [ discriminate | ].
    destruct (Ascii.eqb a b) eqn:E; [ | discriminate ].
    apply Ascii.eqb_eq in E. subst b.
    destruct (ascii_dec a a) as [_ | N]; [ | contradiction ].
    apply IH. assumption.
Qed.

Lemma match_csq_here_prefix s m :
  match_csq_here s = Some m -> String.prefix "+CSQ:" s = true.
Proof.
  unfold match_csq_here. intro H.
  destruct (strip_prefix "+CSQ:" s) as [s1 | ] eqn:E; [ | discriminate ].
  eapply strip_prefix_prefix. exact E.
Qed.

(** Where the pattern matches, the cheaper test that guards it holds. *)
Lemma re_search_csq_guard r m :
  re_search_csq r = Some m -> truthy r && contains "+CSQ:" r = true.
Proof.
  induction r as [ | c t IH]; intro H.
  - discriminate.
  - simpl truthy. rewrite andb_true_l.
    cbn [re_search_csq] in H. cbn [contains].
    destruct (match_csq_here (String c t)) as [m' | ] eqn:E.
    + rewrite (match_csq_here_prefix _ _ E). reflexivity.
    + apply IH in H. apply andb_prop in H. destruct H as [_ H].
      rewrite H. apply orb_true_r.
Qed.

(** C6, as the code has it.  Let [r] be the reply to [AT+CSQ].  Where the
    pattern matches, its first group [g1] is a run of decimal digits and
    [int(g1)] is taken.  Up to 4300 digits [int] gives the rssi: 99 gives
    "no signal"; every other value from 20 up gives "strong" (20 to 31, and
    any larger value as well: there is no upper bound); 0 to 19 gives
    "fair"; the "unable to read" text is not produced.  Past 4300 digits
    [int] raises [ValueError], which [get_signal] does not catch.  The
    "unable to read" text is produced when the pattern does not match. *)
Theorem get_signal_classification :
  forall (w w1 : World) (r : string),
    send_at "AT+CSQ" 1000 w = (Ok (Some r), w1) ->
    match re_search_csq r with
    | Some (g1, _) =>
        match int_of_digits g1 with
        | Some rssi =>
            (rssi = 99%N -> get_signal w = (Ok no_signal_text, w1))
            /\ ((20 <= rssi <= 31)%N -> get_signal w = (Ok (strong_text rssi), w1))
            /\ ((rssi <= 19)%N -> get_signal w = (Ok (fair_text rssi), w1))
            /\ ((31 < rssi)%N -> rssi <> 99%N ->
                get_signal w = (Ok (strong_text rssi), w1))
            /\ fst (get_signal w) <> Ok unreadable_text
        | None => get_signal w = (Raise ValueError, w1)
        end
    | None => get_signal w = (Ok unreadable_text, w1)
    end.
Proof.
  intros w w1 r Hs.
  destruct (re_search_csq r) as [[g1 g2] | ] eqn:E.
  - pose proof (re_search_csq_guard r _ E) as Hg.
    assert (G : get_signal w
                = (match int_of_digits g1 with
                   | Some rssi =>
                       if (rssi =? 99)%N then ret no_signal_text
                       else if (20 <=? rssi)%N then ret (strong_text rssi)
                       else ret (fair_text rssi)
                   | None => raise ValueError
                   end) w1).
    { unfold get_signal, bind. rewrite Hs, Hg, E. reflexivity. }
    rewrite G. destruct (int_of_digits g1) as [rssi | ]; [ | reflexivity ].
    repeat split.
    + intro H. rewrite H. reflexivity.
    + intros [H1 H2].
      destruct (N.eqb_spec rssi 99); [ lia | ].
      destruct (N.leb_spec 20 rssi); [ reflexivity | lia ].
    + intro H.
      destruct (N.eqb_spec rssi 99); [ lia | ].
      destruct (N.leb_spec 20 rssi); [ lia | reflexivity ].
    + intros H1 H2.
      destruct (N.eqb_spec rssi 99); [ contradiction | ].
      destruct (N.leb_spec 20 rssi); [ reflexivity | lia ].
    + destruct (N.eqb rssi 99); [ discriminate | ].
      destruct (N.leb 20 rssi); discriminate.
  - unfold get_signal, bind. rewrite Hs, E.
    destruct (truthy r && contains "+CSQ:" r); reflexivity.
Qed.

(** ** Listing the call logs *)









(** One entry of the listing: a file that is not UTF-8 stops at
    [readlines()]; otherwise the name is printed, then the first and the
    second line, and a file with exactly one line stops at [lines[1]]. *)
Lemma show_log_result e w :
  fst (show_log e w)
  = if valid_utf8 (content (snd e))
    then if Nat.eqb (line_count e) 1 then Raise IndexError else Ok tt
    else Raise UnicodeDecodeError.
Proof.
  unfold show_log, line_count, bind, print.
  destruct (valid_utf8 (content (snd e))); [ | reflexivity ].
  destruct (readlines (content (snd e))) as [ | l0 [ | l1 ls]]; reflexivity.
Qed.






(** ** The theorems at work on concrete sessions *)

(** The first poll of [remote_hung_up] is answered "+CPAS: 4": the flag is
    cleared and a loop of any length ends with that cycle. *)
Lemma monitor_cycle_hangup_detection_witness :
  call_active remote_hung_up = Some true
  /\ call_active (snd (monitor_cycle "log.txt" remote_hung_up)) = Some false
  /\ monitor_loop 7 "log.txt" remote_hung_up = monitor_cycle "log.txt" remote_hung_up.
Proof.
  destruct (monitor_cycle_hangup_detection "log.txt" remote_hung_up
              (snd (drain_incoming "log.txt" remote_hung_up))
              (snd (send_at "AT+CPAS" 500 remote_hung_up))
              (Some "+CPAS: 4") eq_refl eq_refl eq_refl) as [Hend _].
  destruct (Hend "+CPAS: 4" eq_refl) as [Hflag [_ Hloop]].
  - discriminate.
  - reflexivity.
  - split; [ reflexivity | ]. split; [ exact Hflag | apply Hloop ].
Defined.


Lemma unconnected_operations_witness :
  fst (send_at "ATH" 1000 unconnected) = Ok None
  /\ fst (hangup unconnected) = Raise TypeError
  /\ fst (make_call 3 "+85312345678" unconnected) = Raise TypeError
  /\ fst (answer_call 3 unconnected) = Raise TypeError.
Proof.
  destruct (unconnected_operations 3 "+85312345678" "ATH" 1000 unconnected eq_refl)
    as [Hs [_ [Hh [Hm Ha]]]].
  rewrite Hs. repeat split; assumption.
Defined.

Lemma answer_call_writes_no_header_witness :
  fs (set_active (Some true)
        (set_out (out (snd (send_at "ATA" 1000 (answer_announced answered_silent)))
                  ++ ["✅ 已接聽！開始對話..."])
           (snd (send_at "ATA" 1000 (answer_announced answered_silent)))))
  = fs answered_silent.
Proof.
  exact (proj1 (proj2 (answer_call_writes_no_header 3 "OK" answered_silent
                         (snd (send_at "ATA" 1000 (answer_announced answered_silent)))
                         eq_refl eq_refl))).
Defined.

Lemma make_call_rejected_witness :
  fst (make_call 3 "+85312345678" dial_refused) = Ok false
  /\ fs (snd (make_call 3 "+85312345678" dial_refused)) = []
  /\ call_active (snd (make_call 3 "+85312345678" dial_refused)) = None.
Proof.
  destruct (make_call_rejected 3 "+85312345678" "NO CARRIER" dial_refused
              (snd (send_at "ATD+85312345678;" 2000
                      (dial_announced "+85312345678" dial_refused)))
              eq_refl eq_refl eq_refl) as [E [Hf Ha]].
  rewrite E. repeat split; assumption.
Defined.

Lemma get_signal_classification_witness :
  fst (get_signal signal_twenty_three) = Ok (strong_text 23).
Proof.
  pose proof (get_signal_classification signal_twenty_three
                (snd (send_at "AT+CSQ" 1000 signal_twenty_three))
                ("+CSQ: 23,99" ++ CRLF ++ CRLF ++ "OK")
                ltac:(vm_compute; reflexivity)) as H.
  assert (E : re_search_csq ("+CSQ: 23,99" ++ CRLF ++ CRLF ++ "OK") = Some ("23", "99"))
    by (vm_compute; reflexivity).
  rewrite E in H.
  assert (E' : int_of_digits "23" = Some 23%N) by (vm_compute; reflexivity).
  rewrite E' in H. destruct H as [_ [H _]].
  rewrite H; [ reflexivity | split; vm_compute; discriminate ].
Defined.

Lemma make_call_creates_log_witness :
  exists f,
    fs_lookup "outgoing_+85312345678_20240309_140507.txt"
      (fs (snd (make_call 5 "+85312345678" dial_accepted))) = Some f
    /\ nth_error (readlines (content f)) 1 = Some ("類型: 打出" ++ NL)
    /\ nth_error (readlines (content f)) 2 = Some ("號碼: +85312345678" ++ NL).
Proof.
  destruct (make_call_creates_log 5 "+85312345678" "OK" dial_accepted
              (snd (send_at "ATD+85312345678;" 2000
                      (dial_announced "+85312345678" dial_accepted)))
              ltac:(vm_compute; reflexivity) eq_refl) as [H _].
  destruct H as [_ [[f [d [body [Hf [_ [H2 H3]]]]]] _]].
  - vm_compute. reflexivity.
  - exists f. split; [ exact Hf | ]. split; [ exact H2 | apply H3; reflexivity ].
Defined.

Lemma monitor_call_always_hangs_up_witness :
  hangups (snd (_monitor_call 2 "log.txt" "n" "outgoing" remote_hung_up)) = 1%nat.
Proof.
  destruct (monitor_call_always_hangs_up 2 "log.txt" "n" "outgoing" remote_hung_up)
    as [H _].
  - discriminate.
  - exact H.
Defined.


(** ** Where the code departs from the specification *)

(** C6 as stated: an rssi of 50 is outside 0..31 and is not 99, yet the
    pattern matches and the answer is "strong (50/31)", not the fallback. *)
Lemma rssi_fifty_is_strong :
  re_search_csq "+CSQ: 50,0" = Some ("50", "0")
  /\ int_of_digits "50" = Some 50%N
  /\ get_signal signal_fifty
     = (Ok "訊號強 (50/31)", snd (send_at "AT+CSQ" 1000 signal_fifty))
  /\ fst (get_signal signal_fifty) <> Ok unreadable_text.
Proof.
  split; [ vm_compute; reflexivity | ].
  split; [ vm_compute; reflexivity | ].
  split; [ vm_compute; reflexivity | ].
  vm_compute. discriminate.
Qed.

(** The pattern works on a [str]: its [\d] takes the decimal digits of
    every script and its [\s] every Unicode white space, and [int] reads
    them.  An rssi written in Arabic-Indic digits, or set off from the colon
    by a no-break space, is classified like any other. *)
Lemma signal_query_reads_any_script :
  re_search_csq "+CSQ: ٢٣,٠" = Some ("٢٣", "٠")
  /\ int_of_digits "٢٣" = Some 23%N
  /\ fst (get_signal signal_arabic_indic) = Ok "訊號強 (23/31)"
  /\ re_search_csq ("+CSQ:" ++ no_break_space ++ "7,0") = Some ("7", "0")
  /\ fst (get_signal (connected [reply ("+CSQ:" ++ no_break_space ++ "7,0")]))
     = Ok "訊號一般 (7/31)".
Proof. repeat split; vm_compute; reflexivity. Qed.

(** An rssi of more than 4300 digits: the pattern matches and [int] raises
    [ValueError], which nothing in [get_signal] catches. *)
Lemma overlong_rssi_raises :
  (exists g1 g2, re_search_csq ("+CSQ: 1" ++ zeros 4300 ++ ",0") = Some (g1, g2)
                 /\ String.length g1 = 4301%nat
                 /\ int_of_digits g1 = None)
  /\ fst (get_signal signal_overlong) = Raise ValueError.
Proof.
  split.
  - eexists. eexists. split; [ vm_compute; reflexivity | ].
    split; vm_compute; reflexivity.
  - vm_compute. reflexivity.
Qed.

(** A reply that is white space only is no reply: [strip()] removes every
    Unicode white space, the no-break space included, so the poll reads an
    empty text and the call goes on. *)
Lemma no_break_space_is_blank :
  strip no_break_space = ""
  /\ strip (" OK" ++ no_break_space ++ CRLF) = "OK"
  /\ fst (send_at "AT+CPAS" 500 polled_no_break_space) = Ok (Some "")
  /\ call_active (snd (monitor_cycle "log.txt" polled_no_break_space)) = Some true.
Proof. repeat split; vm_compute; reflexivity. Qed.


(** The counting of C2 on the scripted session: a loop given three passes
    is still running with three polls written; the pass that follows reads
    "+CPAS: 4" and ends it. *)
Lemma loop_ends_in_the_pass_after_three :
  fst (monitor_loop 3 "log.txt" three_zeros_then_four) = Unfinished
  /\ call_active (snd (monitor_loop 3 "log.txt" three_zeros_then_four)) = Some true
  /\ written (snd (monitor_loop 3 "log.txt" three_zeros_then_four))
     = [poll_line; poll_line; poll_line]
  /\ fst (monitor_loop 4 "log.txt" three_zeros_then_four) = Ok tt
  /\ written (snd (monitor_loop 4 "log.txt" three_zeros_then_four))
     = [poll_line; poll_line; poll_line; poll_line]
  /\ count_occ string_dec
       (written (snd (_monitor_call 9 "log.txt" "n" "outgoing" three_zeros_then_four)))
       poll_line = 4%nat.
Proof. repeat split; vm_compute; reflexivity. Qed.

(** C7 as stated, twice over.  The third line of the log is not the
    dialled number but the number line, which starts with its label.  And
    a number with a slash in it, dialled and accepted, leaves no log at
    all: [open] raises inside [_create_log_file], [make_call] ends with
    that error, the flag stays set and no [ATH] is sent. *)
Lemma outgoing_log_departures :
  (exists f,
     fs_lookup "outgoing_+85312345678_20240309_140507.txt"
       (fs (snd (make_call 5 "+85312345678" dial_accepted))) = Some f
     /\ nth_error (readlines (content f)) 2 = Some ("號碼: +85312345678" ++ NL)
     /\ "號碼: +85312345678" ++ NL <> "+85312345678" ++ NL
     /\ strip ("號碼: +85312345678" ++ NL) <> "+85312345678")
  /\ (fst (send_at "ATD12/34;" 2000 (dial_announced "12/34" dial_accepted))
      = Ok (Some "OK")
      /\ fst (make_call 5 "12/34" dial_accepted) = Raise OSError
      /\ fs (snd (make_call 5 "12/34" dial_accepted)) = []
      /\ call_active (snd (make_call 5 "12/34" dial_accepted)) = Some true
      /\ written (snd (make_call 5 "12/34" dial_accepted)) = ["ATD12/34;" ++ CRLF]).
Proof.
  split.
  - eexists. split; [ vm_compute; reflexivity | ].
    split; [ vm_compute; reflexivity | ].
    split; [ discriminate | vm_compute; discriminate ].
  - repeat split; vm_compute; reflexivity.
Qed.

(** C8 as stated, twice over.  With a lost link the loop is left by the
    error raised in its body ([in_waiting] on the dead port), [hangup()] is
    entered once and meets the dead port again at its [write]: the
    exception leaves [_monitor_call] before the location of the log is
    printed.  With Ctrl+C pressed in the loop and once more while
    [hangup()] waits for the modem, [_monitor_call] ends with
    [KeyboardInterrupt], again without that line. *)
Lemma hangup_failure_skips_report :
  (fst (monitor_try 1 "log.txt" (monitor_entered "log.txt" unplugged_call))
   = Raise SerialException
   /\ fst (_monitor_call 1 "log.txt" "n" "outgoing" unplugged_call)
      = Raise SerialException
   /\ out (snd (_monitor_call 1 "log.txt" "n" "outgoing" unplugged_call))
      = [ "📝 正在記錄通話到: call_logs/log.txt";
          "💬 對話內容 (Ctrl+C 結束通話):";
          hangup_banner ]
   /\ ~ In (saved_text "log.txt")
           (out (snd (_monitor_call 1 "log.txt" "n" "outgoing" unplugged_call))))
  /\ (fst (monitor_try 1 "log.txt" (monitor_entered "log.txt" interrupted_twice))
      = Ok tt
      /\ fst (_monitor_call 1 "log.txt" "n" "outgoing" interrupted_twice)
         = Raise KeyboardInterrupt
      /\ out (snd (_monitor_call 1 "log.txt" "n" "outgoing" interrupted_twice))
         = [ "📝 正在記錄通話到: call_logs/log.txt";
             "💬 對話內容 (Ctrl+C 結束通話):";
             interrupted_text;
             hangup_banner ]
      /\ ~ In (saved_text "log.txt")
              (out (snd (_monitor_call 1 "log.txt" "n" "outgoing" interrupted_twice)))).
Proof.
  split.
  - split; [ reflexivity | ].
    split; [ reflexivity | ].
    split; [ reflexivity | ].
    simpl. intros [H | [H | [H | []]]]; discriminate H.
  - split; [ reflexivity | ].
    split; [ reflexivity | ].
    split; [ reflexivity | ].
    simpl. intros [H | [H | [H | [H | []]]]]; discriminate H.
Qed.


(** C4 on concrete sessions: after an answered call during which nothing
    arrived, [call_logs] holds no file at all; after one during which
    "RING" arrived, the log holds that line and no header; and the listing
    of such a directory stops with [IndexError]. *)
Lemma answer_call_leaves_no_header :
  fst (answer_call 3 answered_silent) = Ok true
  /\ fs (snd (answer_call 3 answered_silent)) = []
  /\ fst (answer_call 3 answered_ringing) = Ok true
  /\ fs (snd (answer_call 3 answered_ringing))
     = [ ("incoming_20240309_140507.txt",
          {| content := "[14:05:07] RING" ++ NL; mtime := 1709993107 |}) ]
  /\ fst (list_call_logs (snd (answer_call 3 answered_ringing))) = Raise IndexError.
Proof. repeat split; reflexivity. Qed.

(** The outgoing path on a concrete session, for comparison: the header is
    there before the first appended line. *)
Lemma make_call_writes_header :
  fs (snd (make_call 3 "+85312345678" dial_accepted))
  = [ ("outgoing_+85312345678_20240309_140507.txt",
       {| content := header_text "outgoing" "+85312345678" (local afternoon)
                     ++ "[14:05:07] RING" ++ NL;
          mtime := 1709993107 |}) ].
Proof. reflexivity. Qed.

(** * Further properties of the controller *)

(** ** What [send_at] hands back *)

Lemma string_length_zero s : String.length s = 0 -> s = "".
Proof. destruct s; simpl; [ reflexivity | discriminate ]. Qed.

(** Once [send_at] has returned a reply, the input buffer is empty: the
    reading loop goes on until [in_waiting] is zero, so nothing that had
    arrived by then is left over for the next command, and the port object
    and its link are as they were. *)
Theorem send_at_drains_the_buffer :
  forall (command : string) (wait : N) (w w' : World) (r : string),
    send_at command wait w = (Ok (Some r), w') ->
    exists c', ser w' = Some c' /\ rx c' = "" /\ alive c' = true
               /\ exists c, ser w = Some c
                            /\ tx c' = (tx c ++ [(command ++ CRLF)%string])%list.
Proof.
  intros command wait w w' r H.
  unfold send_at in H. destruct (ser w) as [c | ] eqn:Hs; [ | discriminate ].
  unfold bind at 1 in H.
  unfold ser_write in H. rewrite Hs in H.
  destruct (alive c) eqn:Ha; [ | discriminate ].
  unfold bind at 1 in H.
  match type of H with
  | context [time_sleep wait ?v] => set (w1 := v) in *
  end.
  assert (Hw1 : exists c1, ser w1 = Some c1 /\ alive c1 = true
                           /\ tx c1 = (tx c ++ [(command ++ CRLF)%string])%list).
  { eexists. split; [ reflexivity | ]. split; reflexivity. }
  clearbody w1.
  destruct (time_sleep wait w1) as [[[] | e | ] w2] eqn:Esl; try discriminate.
  unfold bind at 1 in H.
  destruct (read_response w2) as [[resp | e | ] w3] eqn:Er; try discriminate.
  unfold ret in H. injection H as Hr Hw. subst r w'.
  assert (Hw2 : exists c2, ser w2 = Some c2
                           /\ tx c2 = (tx c ++ [(command ++ CRLF)%string])%list).
  { destruct Hw1 as [c1 [Hs1 [_ Ht1]]].
    unfold time_sleep in Esl. destruct (script w1) as [ | ev es].
    - injection Esl as Hw. subst w2. exists c1. split; assumption.
    - destruct (signal ev); try discriminate;
        injection Esl as Hw; subst w2; simpl; rewrite Hs1; simpl;
        eexists; (split; [ reflexivity | exact Ht1 ]). }
  destruct Hw2 as [c2 [Hs2 Ht2]].
  unfold read_response, bind, ser_in_waiting in Er.
  rewrite Hs2 in Er.
  destruct (alive c2) eqn:Ha2; [ | discriminate ].
  destruct (String.length (rx c2)) as [ | n] eqn:El.
  - unfold ret in Er. injection Er as _ Hw. subst w3.
    exists c2. split; [ assumption | ].
    split; [ apply string_length_zero; assumption | ].
    split; [ assumption | ].
    exists c. split; [ reflexivity | assumption ].
  - unfold ser_read in Er. rewrite Hs2 in Er. unfold ret in Er.
    injection Er as _ Hw. subst w3. simpl.
    eexists. split; [ reflexivity | ]. simpl.
    split; [ rewrite El, Nat.sub_diag; rewrite <- El; apply substring_none | ].
    split; [ assumption | ].
    exists c. split; [ reflexivity | assumption ].
Qed.

Lemma send_at_drains_the_buffer_witness :
  exists c', ser (snd (send_at "AT+CSQ" 1000 ring_buffered)) = Some c'
             /\ rx c' = "".
Proof.
  destruct (send_at_drains_the_buffer "AT+CSQ" 1000 ring_buffered
              (snd (send_at "AT+CSQ" 1000 ring_buffered))
              ("RING" ++ CRLF ++ "+CSQ: 23,99")
              ltac:(vm_compute; reflexivity)) as [c' [Hs [Hr _]]].
  exists c'. split; assumption.
Defined.



(** ** Hanging up and refusals *)

(** On an open port with the link up, [send_at] writes its command once,
    however the wait ends. *)
Lemma send_at_written cmd wait w c :
  ser w = Some c -> alive c = true ->
  written (snd (send_at cmd wait w)) = (tx c ++ [(cmd ++ CRLF)%string])%list.
Proof.
  intros Hs Ha.
  destruct w as [s a f o n sc]; simpl in *; subst.
  destruct c as [r t al]; simpl in *; subst.
  unfold send_at, bind, ser_write, time_sleep; simpl.
  destruct sc as [ | e es]; simpl.
  - unfold read_response, bind, ser_in_waiting, ser_read; simpl.
    destruct (String.length r); reflexivity.
  - unfold deliver, read_response, bind, ser_in_waiting, ser_read.
    destruct (signal e); simpl; try reflexivity;
      destruct (String.length (r ++ arrives e)); reflexivity.
Qed.

Lemma hangup_after_banner w :
  hangup w
  = (result <- send_at "ATH" 1000 ;;
     (fun v => (Ok tt, set_active (Some false) v)) ;;
     py_in "OK" result) (snd (print hangup_banner w)).
Proof. reflexivity. Qed.

(** The flag is cleared after the exchange with the modem, not before it:
    when Ctrl+C arrives while [hangup()] waits for the reply to [ATH], the
    command has been written, [KeyboardInterrupt] leaves [hangup()] and the
    active-call flag is what it was. *)
Theorem hangup_interrupted_keeps_flag :
  forall (w : World) (c : Channel) (e : Event) (es : list Event),
    ser w = Some c -> alive c = true ->
    script w = e :: es -> signal e = SigInt ->
    fst (hangup w) = Raise KeyboardInterrupt
    /\ call_active (snd (hangup w)) = call_active w
    /\ written (snd (hangup w)) = (tx c ++ [hangup_line])%list
    /\ script (snd (hangup w)) = es.
Proof.
  intros w c e es Hs Ha Hsc Hsig.
  destruct w as [s a f o n sc]; simpl in *; subst.
  destruct c as [r t al]; simpl in *; subst.
  unfold hangup, bind, print, send_at, bind, ser_write, time_sleep; simpl.
  rewrite Hsig. simpl. repeat split; reflexivity.
Qed.

Lemma hangup_interrupted_keeps_flag_witness :
  fst (hangup (in_call [ctrl_c])) = Raise KeyboardInterrupt
  /\ call_active (snd (hangup (in_call [ctrl_c]))) = Some true.
Proof.
  destruct (hangup_interrupted_keeps_flag (in_call [ctrl_c]) open_port ctrl_c []
              eq_refl eq_refl eq_refl eq_refl) as [H1 [H2 _]].
  split; [ exact H1 | exact H2 ].
Defined.

(** Whenever [hangup()] returns, the flag is [False]. *)
Lemma hangup_returns_idle w b w' :
  hangup w = (Ok b, w') -> call_active w' = Some false.
Proof.
  rewrite hangup_after_banner. unfold bind.
  destruct (send_at "ATH" 1000 (snd (print hangup_banner w))) as [[res | e | ] w1];
    try discriminate.
  destruct res as [r | ]; simpl; [ | discriminate ].
  unfold ret. intro H. injection H as _ H. subst w'. reflexivity.
Qed.

Lemma monitor_call_returns_idle fuel log number call_type w w' :
  _monitor_call fuel log number call_type w = (Ok tt, w') ->
  call_active w' = Some false.
Proof.
  rewrite monitor_call_unfold. unfold try_finally.
  destruct (monitor_try fuel log (monitor_entered log w)) as [r1 w1].
  pose proof (monitor_finally_result log w1) as Hf.
  destruct (hangup w1) as [[b | e | ] w2] eqn:Eh; rewrite Hf;
    destruct r1 as [[] | e1 | ]; try discriminate.
  intro H. injection H as H. subst w'. simpl.
  eapply hangup_returns_idle. exact Eh.
Qed.

Lemma bind_ok {A B} (m : M A) (k : A -> M B) w b w' :
  bind m k w = (Ok b, w') ->
  exists a w1, m w = (Ok a, w1) /\ k a w1 = (Ok b, w').
Proof.
  unfold bind. destruct (m w) as [[a | e | ] w1]; try discriminate.
  intro H. exists a, w1. split; [ reflexivity | exact H ].
Qed.

(** However a call went, once [make_call] or [answer_call] has returned
    [True] the session is idle again: the active-call flag is [False].  A
    returned [False] leaves the flag as it was. *)
Theorem calls_return_idle :
  forall (fuel : nat) (number : string) (w w' : World) (b : bool),
    (make_call fuel number w = (Ok b, w') \/ answer_call fuel w = (Ok b, w')) ->
    (b = true -> call_active w' = Some false)
    /\ (b = false -> call_active w' = call_active w).
Proof.
  intros fuel number w w' b [H | H].
  - unfold make_call in H.
    apply bind_ok in H. destruct H as [[] [v0 [H0 H]]].
    apply bind_ok in H. destruct H as [res [w1 [Hd H]]].
    assert (Hc : call_active w1 = call_active w).
    { pose proof (send_at_active ("ATD" ++ number ++ ";") 2000%N v0) as Hc.
      rewrite Hd in Hc. simpl in Hc. rewrite Hc.
      pose proof (print_active ("📞 緊打去 " ++ number ++ "...") w) as Hp.
      rewrite H0 in Hp. exact Hp. }
    apply bind_ok in H. destruct H as [ok [v1 [H1 H]]].
    destruct res as [r | ]; [ | discriminate ].
    unfold py_in, ret in H1. injection H1 as Hok Hv1. subst v1.
    apply bind_ok in H. destruct H as [call [v2 [H2 H]]].
    assert (Hv2 : v2 = w1).
    { destruct ok; unfold py_in, ret in H2; injection H2 as _ Hv; congruence. }
    subst v2. destruct call.
    + apply bind_ok in H. destruct H as [[] [v3 [_ H]]].
      apply bind_ok in H. destruct H as [[] [v4 [_ H]]].
      apply bind_ok in H. destruct H as [log [v5 [_ H]]].
      apply bind_ok in H. destruct H as [[] [v6 [_ H]]].
      apply bind_ok in H. destruct H as [[] [v7 [Hm H]]].
      unfold ret in H. injection H as Hb Hw. subst.
      split; [ | discriminate ].
      intros _. eapply monitor_call_returns_idle. exact Hm.
    + apply bind_ok in H. destruct H as [[] [v3 [Hp H]]].
      unfold ret in H. injection H as Hb Hw. subst.
      split; [ discriminate | ]. intros _.
      pose proof (print_active ("❌ 打出失敗: " ++ r) w1) as Hq.
      rewrite Hp in Hq. simpl in Hq. congruence.
  - unfold answer_call in H.
    apply bind_ok in H. destruct H as [[] [v0 [H0 H]]].
    apply bind_ok in H. destruct H as [res [w1 [Hd H]]].
    assert (Hc : call_active w1 = call_active w).
    { pose proof (send_at_active "ATA" 1000%N v0) as Hc.
      rewrite Hd in Hc. simpl in Hc. rewrite Hc.
      pose proof (print_active "📞 正在接聽..." w) as Hp.
      rewrite H0 in Hp. exact Hp. }
    apply bind_ok in H. destruct H as [ok [v1 [H1 H]]].
    destruct res as [r | ]; [ | discriminate ].
    unfold py_in, ret in H1. injection H1 as Hok Hv1. subst v1.
    destruct ok.
    + apply bind_ok in H. destruct H as [[] [v3 [_ H]]].
      apply bind_ok in H. destruct H as [[] [v4 [_ H]]].
      apply bind_ok in H. destruct H as [t [v5 [_ H]]].
      apply bind_ok in H. destruct H as [[] [v7 [Hm H]]].
      unfold ret in H. injection H as Hb Hw. subst.
      split; [ | discriminate ].
      intros _. eapply monitor_call_returns_idle. exact Hm.
    + unfold ret in H. injection H as Hb Hw. subst.
      split; [ discriminate | ]. intros _. exact Hc.
Qed.

Lemma calls_return_idle_witness :
  call_active (snd (make_call 3 "+85312345678" dial_accepted)) = Some false.
Proof.
  refine (proj1 (calls_return_idle 3 "+85312345678" dial_accepted
                   (snd (make_call 3 "+85312345678" dial_accepted)) true _) eq_refl).
  left. vm_compute. reflexivity.
Defined.

Lemma send_at_out_connected cmd wait w c :
  ser w = Some c -> out (snd (send_at cmd wait w)) = out w.
Proof.
  intro Hs. unfold send_at. rewrite Hs. revert w Hs.
  assert (P : preserves out
                (ser_write (cmd ++ CRLF) ;; time_sleep wait ;;
                 response <- read_response ;; ret (Some (strip response)))).
  { apply preserves_bind; [ apply write_out | intro ].
    apply preserves_bind; [ apply sleep_out | intro ].
    apply preserves_bind; [ apply read_response_out | intro; apply preserves_ret ]. }
  intros w _. apply P.
Qed.

Lemma send_at_some_connected cmd wait w r w1 :
  send_at cmd wait w = (Ok (Some r), w1) -> exists c, ser w = Some c.
Proof.
  unfold send_at. destruct (ser w) as [c | ]; [ eauto | discriminate ].
Qed.

(** [answer_call] is stricter than [make_call] and quieter: a reply to
    [ATA] without "OK" makes it return [False] at once, also when the reply
    holds "CALL"; it prints no failure line, never enters [hangup()], and
    leaves the flag and the directory alone. *)
Theorem answer_call_refused :
  forall (fuel : nat) (r : string) (w w1 : World),
    send_at "ATA" 1000 (answer_announced w) = (Ok (Some r), w1) ->
    contains "OK" r = false ->
    answer_call fuel w = (Ok false, w1)
    /\ out w1 = (out w ++ ["📞 正在接聽..."])%list
    /\ hangups w1 = hangups w
    /\ call_active w1 = call_active w
    /\ fs w1 = fs w.
Proof.
  intros fuel r w w1 Hs Hok.
  split.
  { unfold answer_call. unfold bind at 1.
    change (print "📞 正在接聽..." w) with (@Ok unit tt, answer_announced w).
    cbv iota beta. unfold bind at 1. rewrite Hs.
    unfold py_in. unfold bind at 1. unfold ret at 1. rewrite Hok. reflexivity. }
  destruct (send_at_some_connected _ _ _ _ _ Hs) as [c Hc].
  pose proof (send_at_out_connected "ATA" 1000%N (answer_announced w) c Hc) as Ho.
  pose proof (send_at_hangups "ATA" 1000%N (answer_announced w)) as Hh.
  pose proof (send_at_active "ATA" 1000%N (answer_announced w)) as Ha.
  pose proof (send_at_fs "ATA" 1000%N (answer_announced w)) as Hf.
  rewrite Hs in Ho, Hh, Ha, Hf. simpl in Ho, Hh, Ha, Hf.
  split; [ exact Ho | ].
  split; [ rewrite Hh; apply (print_hangups "📞 正在接聽..."); discriminate | ].
  split; assumption.
Qed.

Lemma answer_call_refused_witness :
  contains "CALL" "NO CALL" = true
  /\ fst (answer_call 3 answer_refused) = Ok false.
Proof.
  split; [ reflexivity | ].
  rewrite (proj1 (answer_call_refused 3 "NO CALL" answer_refused
                    (snd (send_at "ATA" 1000 (answer_announced answer_refused)))
                    eq_refl eq_refl)).
  reflexivity.
Defined.

(** A refused dial costs one command: on an open port [make_call] writes
    the dial line [ATD<number>;] followed by CR LF and nothing else; it never
    enters [hangup()], so no [ATH] follows. *)
Theorem refused_dial_sends_one_command :
  forall (fuel : nat) (number r : string) (w w1 : World) (c : Channel),
    ser w = Some c -> alive c = true ->
    send_at ("ATD" ++ number ++ ";") 2000 (dial_announced number w)
      = (Ok (Some r), w1) ->
    contains "OK" r = false ->
    contains "CALL" r = false ->
    written (snd (make_call fuel number w))
      = (tx c ++ [("ATD" ++ number ++ ";" ++ CRLF)%string])%list
    /\ hangups (snd (make_call fuel number w)) = hangups w.
Proof.
  intros fuel number r w w1 c Hs Ha Hd Hok Hcall.
  assert (E : make_call fuel number w
              = (Ok false, set_out (out w1 ++ ["❌ 打出失敗: " ++ r]) w1)).
  { rewrite (make_call_after_dial fuel number w _ _ Hd).
    unfold bind, py_in, ret. rewrite Hok, Hcall. reflexivity. }
  rewrite E. simpl snd.
  pose proof (send_at_written ("ATD" ++ number ++ ";") 2000%N
                (dial_announced number w) c Hs Ha) as Hw.
  pose proof (send_at_hangups ("ATD" ++ number ++ ";") 2000%N
                (dial_announced number w)) as Hh.
  rewrite Hd in Hw, Hh. simpl in Hw, Hh.
  split.
  - unfold written in *. simpl. rewrite Hw.
    rewrite !string_app_assoc. reflexivity.
  - transitivity (hangups w1).
    + unfold hangups. simpl. rewrite count_occ_app. simpl.
      destruct (string_dec ("❌ 打出失敗: " ++ r) hangup_banner) as [X | _];
        [ discriminate X | lia ].
    + rewrite Hh. apply (print_hangups ("📞 緊打去 " ++ number ++ "...")).
      discriminate.
Qed.

Lemma refused_dial_sends_one_command_witness :
  written (snd (make_call 3 "+85312345678" dial_refused))
  = ["ATD+85312345678;" ++ CRLF].
Proof.
  exact (proj1 (refused_dial_sends_one_command 3 "+85312345678" "NO CARRIER"
                  dial_refused
                  (snd (send_at "ATD+85312345678;" 2000
                          (dial_announced "+85312345678" dial_refused)))
                  open_port eq_refl eq_refl eq_refl eq_refl eq_refl)).
Defined.

(** ** The monitoring loop: what it records and when it does not end *)

Lemma monitor_cycle_silent log w c :
  ser w = Some c -> alive c = true -> rx c = "" -> script w = [] ->
  monitor_cycle log w = (Ok tt, exchanged poll_line c silence [] w).
Proof.
  intros Hs Ha Hrx Hsc.
  assert (Hd : drain_incoming log w = (Ok tt, w)).
  { unfold drain_incoming, bind, ser_in_waiting. rewrite Hs, Ha, Hrx. reflexivity. }
  pose proof (send_at_reply "AT+CPAS" 500%N w c Hs Ha) as Hp.
  rewrite Hsc, Hrx in Hp. simpl in Hp. specialize (Hp eq_refl).
  rewrite (monitor_cycle_after_poll log w w _ _ Hd Hp).
  reflexivity.
Qed.

(** There is no time-out on a call.  On an open port, when the modem
    stays silent (the script is over: no reply, no Ctrl+C), every poll
    returns the empty text, which is not taken for a hang-up: whatever number
    of passes the loop is given, it is still running after them, having
    written one [AT+CPAS] per pass and nothing to the directory. *)
Theorem silent_line_never_ends_the_call :
  forall (fuel : nat) (log : string) (w : World) (c : Channel),
    ser w = Some c -> alive c = true -> rx c = "" ->
    script w = [] ->
    call_active w = Some true ->
    fst (monitor_loop fuel log w) = Unfinished
    /\ call_active (snd (monitor_loop fuel log w)) = Some true
    /\ written (snd (monitor_loop fuel log w)) = (tx c ++ repeat poll_line fuel)%list
    /\ fs (snd (monitor_loop fuel log w)) = fs w
    /\ out (snd (monitor_loop fuel log w)) = out w.
Proof.
  induction fuel as [ | fuel IH]; intros log w c Hs Ha Hrx Hsc Hact.
  - rewrite monitor_loop_paused by assumption. simpl.
    unfold written. rewrite Hs, app_nil_r. auto.
  - rewrite monitor_loop_step by assumption. unfold bind.
    rewrite (monitor_cycle_silent log w c Hs Ha Hrx Hsc).
    destruct (IH log (exchanged poll_line c silence [] w)
                {| rx := ""; tx := tx c ++ [poll_line]; alive := true |}
                eq_refl eq_refl eq_refl eq_refl Hact)
      as [H1 [H2 [H3 [H4 H5]]]].
    repeat split; try assumption.
    rewrite H3. simpl. rewrite <- app_assoc. reflexivity.
Qed.

Lemma silent_line_never_ends_the_call_witness :
  fst (monitor_loop 50 "log.txt" silent_call) = Unfinished
  /\ List.length (written (snd (monitor_loop 50 "log.txt" silent_call))) = 50%nat.
Proof.
  destruct (silent_line_never_ends_the_call 50 "log.txt" silent_call open_port
              eq_refl eq_refl eq_refl eq_refl eq_refl) as [H1 [_ [H3 _]]].
  split; [ exact H1 | ]. rewrite H3. reflexivity.
Defined.

(** The monitoring never truncates or rewrites: however [_monitor_call]
    ends and however long it runs, every path other than its log is what it
    was, and a log that existed keeps its text as the beginning of what it
    holds afterwards. *)
Theorem monitoring_only_appends :
  forall (fuel : nat) (log number call_type : string) (w : World),
    (forall q, q <> log ->
       fs_lookup q (fs (snd (_monitor_call fuel log number call_type w)))
       = fs_lookup q (fs w))
    /\ (forall f, fs_lookup log (fs w) = Some f ->
          exists f' body,
            fs_lookup log (fs (snd (_monitor_call fuel log number call_type w)))
            = Some f'
            /\ content f' = content f ++ body).
Proof.
  intros fuel log number call_type w.
  exact (monitor_call_appends fuel log number call_type w).
Qed.



(** ** More on listing the logs *)



Lemma list_call_logs_unfold w :
  list_call_logs w
  = match sorted_newest_first (glob_txt (fs w)) with
    | [] => print "暫無記錄" (set_out (out w ++ [String LF "=== 通話記錄 ==="]) w)
    | logs => show_logs (firstn 10 logs)
                (set_out (out w ++ [String LF "=== 通話記錄 ==="]) w)
    end.
Proof.
  unfold list_call_logs, bind, print. cbv beta iota.
  change (fs (set_out (out w ++ [String LF "=== 通話記錄 ==="]) w)) with (fs w).
  destruct (sorted_newest_first (glob_txt (fs w))); reflexivity.
Qed.



(** [list_call_logs] only reads: the directory, the port and the flag are
    what they were, also when it stops with [IndexError]; and what it has
    printed by then starts with the title. *)
Theorem list_call_logs_reads_only :
  forall (w : World),
    fs (snd (list_call_logs w)) = fs w
    /\ ser (snd (list_call_logs w)) = ser w
    /\ call_active (snd (list_call_logs w)) = call_active w
    /\ script (snd (list_call_logs w)) = script w
    /\ exists printed,
         out (snd (list_call_logs w))
         = (out w ++ String LF "=== 通話記錄 ===" :: printed)%list.
Proof.
  assert (P : forall (X : Type) (f : World -> X),
            (forall s, preserves f (print s)) ->
            forall logs, preserves f (show_logs logs)).
  { intros X f Hp. induction logs as [ | e logs IH]; simpl.
    - apply preserves_ret.
    - apply preserves_bind; [ | intro; exact IH ].
      unfold show_log.
      destruct (valid_utf8 (content (snd e))); [ | apply preserves_raise ].
      apply preserves_bind; [ apply Hp | intro ].
      destruct (readlines (content (snd e))) as [ | l0 ls]; [ apply preserves_ret | ].
      apply preserves_bind; [ apply Hp | intro ].
      destruct (nth_error (l0 :: ls) 1); [ apply Hp | apply preserves_raise ]. }
  assert (Q : forall (X : Type) (f : World -> X),
            (forall s, preserves f (print s)) -> preserves f list_call_logs).
  { intros X f Hp. unfold list_call_logs.
    apply preserves_bind; [ apply Hp | intro ].
    apply preserves_bind; [ intro v; reflexivity | intro d ].
    destruct (sorted_newest_first (glob_txt d)); [ apply Hp | apply P; exact Hp ]. }
  assert (G : forall logs v, exists more,
            out (snd (show_logs logs v)) = (out v ++ more)%list).
  { induction logs as [ | e logs IH]; intro v; simpl.
    - exists []. rewrite app_nil_r. reflexivity.
    - unfold bind.
      assert (S1 : exists m1, out (snd (show_log e v)) = (out v ++ m1)%list).
      { unfold show_log, bind, print.
        destruct (valid_utf8 (content (snd e)));
          [ | exists []; simpl; rewrite app_nil_r; reflexivity ].
        simpl.
        destruct (readlines (content (snd e))) as [ | l0 [ | l1 ls]]; simpl;
          eexists; rewrite <- ?app_assoc; reflexivity. }
      destruct S1 as [m1 H1].
      destruct (show_log e v) as [[[] | x | ] v1]; simpl in *;
        try (exists m1; exact H1).
      destruct (IH v1) as [m2 H2]. exists (m1 ++ m2)%list.
      rewrite H2, H1, app_assoc. reflexivity. }
  intro w.
  split; [ apply (Q _ fs); intros s v; reflexivity | ].
  split; [ apply (Q _ ser); intros s v; reflexivity | ].
  split; [ apply (Q _ call_active); intros s v; reflexivity | ].
  split; [ apply (Q _ script); intros s v; reflexivity | ].
  rewrite list_call_logs_unfold.
  destruct (sorted_newest_first (glob_txt (fs w))) as [ | e l].
  - exists ["暫無記錄"]. unfold print. simpl. rewrite <- app_assoc. reflexivity.
  - destruct (G (firstn 10 (e :: l))
                (set_out (out w ++ [String LF "=== 通話記錄 ==="]) w)) as [more H].
    exists more. rewrite H. simpl out. rewrite <- app_assoc. reflexivity.
Qed.

Lemma ends_with_app a suffix : ends_with suffix (a ++ suffix) = true.
Proof.
  induction a as [ | c a IH]; simpl.
  - destruct suffix as [ | c s]; [ reflexivity | ].
    cbn [ends_with]. rewrite String.eqb_refl. reflexivity.
  - rewrite IH. apply orb_true_r.
Qed.

Lemma accepted_dial_log fuel number r w w1 :
  send_at ("ATD" ++ number ++ ";") 2000 (dial_announced number w)
    = (Ok (Some r), w1) ->
  contains "OK" r || contains "CALL" r = true ->
  valid_name (outgoing_log number (local (now w1))) = true ->
  exists f body,
    fs_lookup (outgoing_log number (local (now w1)))
      (fs (snd (make_call fuel number w))) = Some f
    /\ content f = header_text "outgoing" number (local (now w1)) ++ body.
Proof.
  intros Hd Haff Hv.
  set (log := outgoing_log number (local (now w1))) in *.
  set (hdr := {| content := header_text "outgoing" number (local (now w1));
                 mtime := epoch (now w1) |}).
  set (w2 := set_active (Some true)
               (set_out (out w1 ++ ["✅ 正在通話中... (按 Ctrl+C 結束)"]) w1)).
  set (w3 := set_fs (fs_put log hdr (fs w1)) w2).
  set (rest := (time_sleep 2000 ;;
                _monitor_call fuel log number "outgoing" ;; ret true) : M bool).
  assert (E : make_call fuel number w = rest w3).
  { rewrite (make_call_accepted fuel number r w w1 Hd Haff). fold w2.
    unfold bind at 1. rewrite create_log_file_run. cbv zeta.
    change ("outgoing" ++ "_" ++ number ++ "_"
            ++ strftime_compact (local (now w2)) ++ ".txt") with log.
    rewrite (valid_name_open_error _ Hv). reflexivity. }
  assert (G : appends_only log rest).
  { unfold rest.
    apply appends_only_bind; [ apply appends_only_frame, sleep_fs | intro ].
    apply appends_only_bind; [ apply monitor_call_appends | intro ].
    apply appends_only_frame, preserves_ret. }
  destruct (G w3) as [_ Glog].
  destruct (Glog hdr) as [f [body [Hf Hc]]].
  { unfold w3. simpl. apply fs_lookup_put_same. }
  exists f, body. rewrite E. split; assumption.
Qed.

(** What [make_call] writes, [list_call_logs] can show.  After an accepted
    dial to a number whose log name the file system takes, however the call
    went, the log carries a name ending in [.txt] and at least two lines: an
    outgoing log never stops the listing with [IndexError], and once its
    bytes are read as UTF-8 the listing prints its entry, the name and the
    first two header lines, and goes on. *)
Theorem outgoing_log_is_listable :
  forall (fuel : nat) (number r : string) (w w1 : World),
    send_at ("ATD" ++ number ++ ";") 2000 (dial_announced number w)
      = (Ok (Some r), w1) ->
    contains "OK" r || contains "CALL" r = true ->
    let log := outgoing_log number (local (now w1)) in
    valid_name log = true ->
    ends_with ".txt" log = true
    /\ exists f,
         fs_lookup log (fs (snd (make_call fuel number w))) = Some f
         /\ (2 <= line_count (log, f))%nat
         /\ (forall v, fst (show_log (log, f) v) <> Raise IndexError)
         /\ (valid_utf8 (content f) = true ->
             forall v, show_log (log, f) v
                       = (Ok tt, set_out (out v ++ [ (String LF "📄 " ++ log)%string;
                                                     "   === 通話記錄 ===";
                                                     "   類型: 打出" ]) v)).
Proof.
  intros fuel number r w w1 Hd Haff log Hv.
  split.
  { unfold log, outgoing_log.
    rewrite <- !string_app_assoc. apply ends_with_app. }
  destruct (accepted_dial_log fuel number r w w1 Hd Haff Hv) as [f [body [Hf Hc]]].
  exists f. split; [ exact Hf | ].
  assert (L : exists rest,
            readlines (content f)
            = (banner_line ++ NL) :: (direction_line "outgoing" ++ NL) :: rest).
  { rewrite Hc, header_text_lines.
    rewrite readlines_line by reflexivity.
    rewrite readlines_line by reflexivity.
    eexists. reflexivity. }
  destruct L as [rest L].
  assert (C : (2 <= line_count (log, f))%nat).
  { unfold line_count. simpl snd. rewrite L. simpl. lia. }
  split; [ exact C | ].
  split.
  { intro v. rewrite show_log_result.
    destruct (valid_utf8 (content (snd (log, f)))); [ | discriminate ].
    destruct (Nat.eqb_spec (line_count (log, f)) 1); [ lia | discriminate ]. }
  intros Hu v. unfold show_log. cbv zeta.
  change (snd (log, f)) with f. change (fst (log, f)) with log.
  assert (B1 : strip (banner_line ++ NL) = "=== 通話記錄 ===")
    by (vm_compute; reflexivity).
  assert (B2 : strip (direction_line "outgoing" ++ NL) = "類型: 打出")
    by (vm_compute; reflexivity).
  rewrite Hu, L. cbn [nth_error]. rewrite B1, B2.
  unfold bind, print, set_out. simpl.
  rewrite <- !app_assoc. reflexivity.
Qed.

Lemma outgoing_log_is_listable_witness :
  fst (list_call_logs (snd (make_call 3 "+85312345678" dial_accepted))) = Ok tt
  /\ ends_with ".txt" (outgoing_log "+85312345678" (local afternoon)) = true.
Proof.
  split; [ vm_compute; reflexivity | ].
  exact (proj1 (outgoing_log_is_listable 3 "+85312345678" "OK" dial_accepted
                  (snd (send_at "ATD+85312345678;" 2000
                          (dial_announced "+85312345678" dial_accepted)))
                  ltac:(vm_compute; reflexivity) eq_refl
                  ltac:(vm_compute; reflexivity))).
Defined.

(** ** The pattern of the signal query *)

Lemma decode_char_spec s cp ch rest :
  decode_char s = Some (cp, ch, rest) ->
  s = ch ++ rest /\ ch <> "" /\ decode_char ch = Some (cp, ch, "").
Proof.
  unfold decode_char.
  destruct s as [ | a t]; [ discriminate | ].
  destruct (byte a <? 128)%N eqn:E1.
  { intro H. injection H as <- <- <-. rewrite E1. repeat split. discriminate. }
  destruct ((194 <=? byte a) && (byte a <=? 223))%N eqn:E2.
  { destruct t as [ | b t1]; [ discriminate | ].
    destruct (continuation b) as [x | ] eqn:Cb; [ | discriminate ].
    intro H. injection H as <- <- <-. rewrite E1, E2, Cb.
    repeat split. discriminate. }
  destruct ((224 <=? byte a) && (byte a <=? 239))%N eqn:E3.
  { destruct t as [ | b [ | c t2]]; try discriminate.
    destruct (continuation b) as [x | ] eqn:Cb; [ | discriminate ].
    destruct (continuation c) as [y | ] eqn:Cc; [ | discriminate ].
    match goal with |- context [if ?g then _ else _] => destruct g eqn:G end;
      [ | discriminate ].
    intro H. injection H as <- <- <-. rewrite E1, E2, E3, Cb, Cc, G.
    repeat split. discriminate. }
  destruct ((240 <=? byte a) && (byte a <=? 244))%N eqn:E4; [ | discriminate ].
  destruct t as [ | b [ | c [ | d t3]]]; try discriminate.
  destruct (continuation b) as [x | ] eqn:Cb; [ | discriminate ].
  destruct (continuation c) as [y | ] eqn:Cc; [ | discriminate ].
  destruct (continuation d) as [z | ] eqn:Cd; [ | discriminate ].
  match goal with |- context [if ?g then _ else _] => destruct g eqn:G end;
    [ | discriminate ].
  intro H. injection H as <- <- <-. rewrite E1, E2, E3, E4, Cb, Cc, Cd, G.
  repeat split. discriminate.
Qed.

Lemma string_length_app (a b : string) :
  String.length (a ++ b) = String.length a + String.length b.
Proof. induction a as [ | c a IH]; simpl; [ reflexivity | rewrite IH; reflexivity ]. Qed.

Lemma decode_char_shorter s cp ch rest :
  decode_char s = Some (cp, ch, rest) -> String.length rest < String.length s.
Proof.
  intro H. destruct (decode_char_spec _ _ _ _ H) as [-> [Hne _]].
  rewrite string_length_app. destruct ch; [ congruence | simpl; lia ].
Qed.

Lemma lstrip_from_spec fuel s :
  exists ws, s = ws ++ lstrip_from fuel s /\ points is_space ws.
Proof.
  revert s. induction fuel as [ | fuel IH]; intro s; simpl.
  - exists "". split; [ reflexivity | constructor ].
  - destruct (decode_char s) as [[[cp ch] rest] | ] eqn:E.
    + destruct (is_space cp) eqn:Ep.
      * destruct (decode_char_spec _ _ _ _ E) as [-> [_ Hch]].
        destruct (IH rest) as [ws [H1 H2]].
        exists (ch ++ ws). split.
        -- rewrite string_app_assoc, <- H1. reflexivity.
        -- econstructor; eassumption.
      * exists "". split; [ reflexivity | constructor ].
    + exists "". split; [ reflexivity | constructor ].
Qed.

Lemma digits_run_spec fuel s g r :
  digits_run fuel s = (g, r) ->
  s = g ++ r /\ points is_digit g
  /\ (String.length s <= fuel ->
      forall cp ch rest, decode_char r = Some (cp, ch, rest) -> is_digit cp = false).
Proof.
  revert s g r. induction fuel as [ | fuel IH]; intros s g r H; simpl in H.
  - injection H as <- <-. split; [ reflexivity | ]. split; [ constructor | ].
    intros Hl. destruct s; [ discriminate | simpl in Hl; lia ].
  - destruct (decode_char s) as [[[cp ch] rest] | ] eqn:E.
    + destruct (is_digit cp) eqn:Ep.
      * destruct (digits_run fuel rest) as [g' r'] eqn:Er.
        injection H as <- <-.
        destruct (IH _ _ _ Er) as [H1 [H2 H3]].
        pose proof (decode_char_shorter _ _ _ _ E) as Hlen.
        destruct (decode_char_spec _ _ _ _ E) as [-> [_ Hch]].
        split; [ rewrite string_app_assoc, <- H1; reflexivity | ].
        split; [ econstructor; eassumption | ].
        intro Hl. apply H3. lia.
      * injection H as <- <-. split; [ reflexivity | ]. split; [ constructor | ].
        intros _ cp' ch' rest' E'. rewrite E in E'. injection E' as <- <- <-. exact Ep.
    + injection H as <- <-. split; [ reflexivity | ]. split; [ constructor | ].
      intros _ cp' ch' rest' E'. rewrite E in E'. discriminate.
Qed.

Lemma decode_char_app ch cp ws :
  decode_char ch = Some (cp, ch, "") -> decode_char (ch ++ ws) = Some (cp, ch, ws).
Proof.
  unfold decode_char.
  destruct ch as [ | a t]; [ discriminate | ]. simpl.
  destruct (byte a <? 128)%N eqn:E1.
  { intro H. injection H as <- <-. reflexivity. }
  destruct ((194 <=? byte a) && (byte a <=? 223))%N eqn:E2.
  { destruct t as [ | b t1]; [ discriminate | ]. simpl.
    destruct (continuation b) as [x | ]; [ | discriminate ].
    intro H. injection H as <- <-. reflexivity. }
  destruct ((224 <=? byte a) && (byte a <=? 239))%N eqn:E3.
  { destruct t as [ | b [ | c t2]]; try discriminate. simpl.
    destruct (continuation b) as [x | ]; [ | discriminate ].
    destruct (continuation c) as [y | ]; [ | discriminate ].
    match goal with |- context [if ?g then _ else _] => destruct g end;
      [ | discriminate ].
    intro H. injection H as <- <-. reflexivity. }
  destruct ((240 <=? byte a) && (byte a <=? 244))%N eqn:E4; [ | discriminate ].
  destruct t as [ | b [ | c [ | d t3]]]; try discriminate. simpl.
  destruct (continuation b) as [x | ]; [ | discriminate ].
  destruct (continuation c) as [y | ]; [ | discriminate ].
  destruct (continuation d) as [z | ]; [ | discriminate ].
  match goal with |- context [if ?g then _ else _] => destruct g end;
    [ | discriminate ].
  intro H. injection H as <- <-. reflexivity.
Qed.

Lemma digit_values_points g :
  points is_digit g ->
  forall fuel, String.length g <= fuel ->
    exists vs, digit_values fuel g = Some vs /\ List.length vs <= String.length g.
Proof.
  induction 1 as [ | cp ch ws Hch Hp Hws IH]; intros fuel Hl.
  - exists []. destruct fuel; simpl; split; auto.
  - pose proof (decode_char_app ch cp ws Hch) as E.
    rewrite string_length_app in Hl.
    assert (Hne : 0 < String.length ch).
    { destruct ch; [ discriminate | simpl; lia ]. }
    destruct fuel as [ | fuel]; [ lia | ].
    destruct (IH fuel ltac:(lia)) as [vs [Hv Hlen]].
    unfold is_digit in Hp.
    destruct (decimal_value cp) as [v | ] eqn:Ev; [ | discriminate ].
    exists (v :: vs).
    rewrite string_length_app. split; [ | simpl; lia ].
    destruct (ch ++ ws) as [ | a t] eqn:Eg.
    + destruct ch; discriminate.
    + cbn [digit_values]. rewrite E, Ev, Hv. reflexivity.
Qed.

Lemma int_of_digits_limit g :
  points is_digit g ->
  exists vs,
    digit_values (String.length g) g = Some vs
    /\ (int_of_digits g = None <-> int_max_str_digits < List.length vs).
Proof.
  intros Hp. unfold int_of_digits.
  destruct (digit_values_points g Hp (String.length g) (le_n _)) as [vs [E Hl]].
  exists vs. split; [ exact E | ]. rewrite E.
  destruct (Nat.ltb_spec int_max_str_digits (List.length vs)); split;
    try reflexivity; try discriminate; try assumption; lia.
Qed.

Lemma strip_prefix_spec pre s x : strip_prefix pre s = Some x -> s = pre ++ x.
Proof.
  revert s. induction pre as [ | a pre IH]; intros s H; simpl in H.
  - injection H as <-. reflexivity.
  - destruct s as [ | b s]; [ discriminate | ].
    destruct (Ascii.eqb a b) eqn:E; [ | discriminate ].
    apply Ascii.eqb_eq in E. subst b. simpl. rewrite (IH s H). reflexivity.
Qed.

Lemma match_csq_here_spec s g1 g2 :
  match_csq_here s = Some (g1, g2) ->
  exists ws post,
    s = "+CSQ:" ++ ws ++ g1 ++ "," ++ g2 ++ post
    /\ points is_space ws
    /\ points is_digit g1 /\ g1 <> ""
    /\ points is_digit g2 /\ g2 <> ""
    /\ (forall cp ch rest,
          decode_char post = Some (cp, ch, rest) -> is_digit cp = false).
Proof.
  unfold match_csq_here. intro H.
  destruct (strip_prefix "+CSQ:" s) as [s1 | ] eqn:E1; [ | discriminate ].
  destruct (lstrip_from_spec (String.length s1) s1) as [ws [A2 B2]].
  fold (lstrip s1) in A2.
  destruct (span_digits (lstrip s1)) as [d1 s3] eqn:E3.
  destruct d1 as [ | c1 d1']; [ discriminate | ].
  destruct s3 as [ | c s4]; [ discriminate | ].
  destruct (Ascii.eqb c ","%char) eqn:Ec; [ | discriminate ].
  destruct (span_digits s4) as [d2 post] eqn:E4.
  destruct d2 as [ | c2 d2']; [ discriminate | ].
  injection H as <- <-.
  apply Ascii.eqb_eq in Ec. subst c.
  apply strip_prefix_spec in E1.
  destruct (digits_run_spec _ _ _ _ E3) as [A3 [B3 _]].
  destruct (digits_run_spec _ _ _ _ E4) as [A4 [B4 C4]].
  exists ws, post.
  split.
  { rewrite <- A4.
    change ("," ++ s4) with (String ","%char s4).
    rewrite <- A3, <- A2. exact E1. }
  repeat split; try assumption; try discriminate.
  apply C4. apply le_n.
Qed.

(** What the pattern of [get_signal] accepts.  When the search succeeds
    with the groups [g1] and [g2], the text holds, somewhere, "+CSQ:", then
    white space only ([\s], any Unicode white space), then [g1], a comma and
    [g2], where both groups are non-empty runs of decimal digits ([\d], of
    any script) and [g2] is not followed by a further digit.  [int(g1)]
    then fails in one case only: when [g1] has more than 4300 digits. *)
Theorem re_search_csq_sound :
  forall (s g1 g2 : string),
    re_search_csq s = Some (g1, g2) ->
    (exists pre ws post,
       s = pre ++ "+CSQ:" ++ ws ++ g1 ++ "," ++ g2 ++ post
       /\ points is_space ws
       /\ points is_digit g1 /\ g1 <> ""
       /\ points is_digit g2 /\ g2 <> ""
       /\ (forall cp ch rest,
             decode_char post = Some (cp, ch, rest) -> is_digit cp = false))
    /\ (exists digits,
          digit_values (String.length g1) g1 = Some digits
          /\ (int_of_digits g1 = None
              <-> (int_max_str_digits < List.length digits)%nat)).
Proof.
  assert (S : forall s g1 g2, re_search_csq s = Some (g1, g2) ->
            exists pre ws post,
              s = pre ++ "+CSQ:" ++ ws ++ g1 ++ "," ++ g2 ++ post
              /\ points is_space ws
              /\ points is_digit g1 /\ g1 <> ""
              /\ points is_digit g2 /\ g2 <> ""
              /\ (forall cp ch rest,
                    decode_char post = Some (cp, ch, rest) -> is_digit cp = false)).
  { induction s as [ | ch s IH]; intros g1 g2 H.
    - discriminate.
    - cbn [re_search_csq] in H.
      destruct (match_csq_here (String ch s)) as [[a b] | ] eqn:E.
      + injection H as <- <-.
        destruct (match_csq_here_spec _ _ _ E) as [ws [post [H1 H2]]].
        exists "", ws, post. split; [ exact H1 | exact H2 ].
      + destruct (IH g1 g2 H) as [pre [ws [post [H1 H2]]]].
        exists (String ch pre), ws, post. split; [ | exact H2 ].
        rewrite H1 at 1. reflexivity. }
  intros s g1 g2 H. split; [ exact (S s g1 g2 H) | ].
  destruct (S s g1 g2 H) as [_ [_ [_ [_ [_ [Hd _]]]]]].
  apply int_of_digits_limit. exact Hd.
Qed.

Lemma re_search_csq_sound_witness :
  exists pre ws post,
    "AT+CSQ" ++ CRLF ++ "+CSQ: 23,99" ++ CRLF ++ "OK"
    = pre ++ "+CSQ:" ++ ws ++ "23" ++ "," ++ "99" ++ post
    /\ points is_space ws.
Proof.
  destruct (re_search_csq_sound ("AT+CSQ" ++ CRLF ++ "+CSQ: 23,99" ++ CRLF ++ "OK")
              "23" "99" ltac:(vm_compute; reflexivity))
    as [[pre [ws [post [H1 [H2 _]]]]] _].
  exists pre, ws, post. split; assumption.
Defined.

(** ** Closing the port *)

(** [close()] does nothing on a session without a port.  On a session with
    one it prints its line and shuts the port but keeps the object: the
    session does not fall back to "not connected", and a later command is
    written to the shut port and raises instead of returning [None];
    [get_signal] raises with it instead of giving its fallback text. *)
Theorem close_keeps_the_port_object :
  forall (w : World),
    (ser w = None -> close w = (Ok tt, w))
    /\ (forall c, ser w = Some c ->
          fst (close w) = Ok tt
          /\ out (snd (close w)) = (out w ++ ["✅ 已斷開連接"])%list
          /\ ser (snd (close w)) <> None
          /\ fs (snd (close w)) = fs w
          /\ call_active (snd (close w)) = call_active w
          /\ forall command wait,
               send_at command wait (snd (close w))
               = (Raise SerialException, snd (close w))
               /\ fst (get_signal (snd (close w))) = Raise SerialException).
Proof.
  intro w. split.
  - intro H. unfold close. rewrite H. reflexivity.
  - intros c H. unfold close. rewrite H. simpl.
    repeat split; try discriminate.
Qed.

(** ** Creating the log, and the two seconds after it *)

(** [_create_log_file] opens its path for writing, not for appending.
    Where the file system takes the name, the file holds a header and
    nothing else afterwards, whatever it held before (a second call of the
    same type to the same number within the same second starts the log
    again), and no other path changes.  Where it does not, the call raises
    and the directory is as it was.  The second header line says "outgoing"
    for the call type ["outgoing"] and "incoming" for every other call
    type.  Output, flag and port are left alone either way. *)
Theorem create_log_file_overwrites :
  forall (call_type number : string) (w : World),
    let name := call_type ++ "_" ++ number ++ "_"
                ++ strftime_compact (local (now w)) ++ ".txt" in
    let w' := snd (_create_log_file call_type number w) in
    (valid_name name = true ->
       fst (_create_log_file call_type number w) = Ok name
       /\ (exists f d, fs_lookup name (fs w') = Some f
                       /\ content f = header_text call_type number d)
       /\ (forall q, q <> name -> fs_lookup q (fs w') = fs_lookup q (fs w)))
    /\ (valid_name name = false ->
        (exists e, fst (_create_log_file call_type number w) = Raise e
                   /\ (e = ValueError \/ e = OSError))
        /\ fs w' = fs w)
    /\ (forall d,
          nth_error (readlines (header_text call_type number d)) 0
          = Some ("=== 通話記錄 ===" ++ NL)
          /\ nth_error (readlines (header_text call_type number d)) 1
             = Some ((if String.eqb call_type "outgoing"
                      then "類型: 打出" else "類型: 接收") ++ NL))
    /\ out w' = out w /\ call_active w' = call_active w /\ ser w' = ser w.
Proof.
  intros call_type number w name w'. unfold w'.
  pose proof (create_log_file_run call_type number w) as E. cbv zeta in E.
  fold name in E. unfold valid_name.
  split; [ | split; [ | split ] ].
  - destruct (open_error name) as [e | ]; [ discriminate | ]. intros _.
    rewrite E. unfold set_fs. cbn [fst snd fs].
    split; [ reflexivity | ].
    split; [ | intros q Hq; apply fs_lookup_put_other; exact Hq ].
    eexists. exists (local (now w)).
    split; [ apply fs_lookup_put_same | reflexivity ].
  - destruct (open_error name) as [e | ] eqn:He; [ | discriminate ]. intros _.
    rewrite E. cbn [fst snd].
    split; [ | reflexivity ].
    exists e. split; [ reflexivity | exact (open_error_kind _ _ He) ].
  - intro d.
    pose proof (header_text_lines call_type number d "") as Hh.
    rewrite append_empty_r in Hh. rewrite Hh.
    rewrite readlines_line by reflexivity.
    assert (D : one_line (direction_line call_type) = true).
    { unfold direction_line. destruct (String.eqb call_type "outgoing"); reflexivity. }
    rewrite readlines_line by exact D.
    split; [ reflexivity | ].
    simpl nth_error. unfold direction_line.
    destruct (String.eqb call_type "outgoing"); reflexivity.
  - rewrite E. destruct (open_error name); repeat split.
Qed.

(** The two seconds [make_call] waits between creating the log and entering
    the monitoring are outside the [try]: Ctrl+C pressed then, after a dial
    to a number whose log name the file system takes, leaves [make_call]
    with [KeyboardInterrupt] while the active-call flag is [True], the log
    holds its header only, and [hangup()] has not been entered: the dial
    line is the only command written, no [ATH] follows. *)
Theorem interrupt_before_monitoring_skips_hangup :
  forall (fuel : nat) (number : string) (w : World) (c : Channel)
         (e1 e2 : Event) (es : list Event),
    ser w = Some c -> alive c = true ->
    script w = e1 :: e2 :: es ->
    signal e1 = NoSignal -> signal e2 = SigInt ->
    contains "OK" (strip (rx c ++ arrives e1))
    || contains "CALL" (strip (rx c ++ arrives e1)) = true ->
    let t := match clock e1 with Some t => t | None => now w end in
    valid_name (outgoing_log number (local t)) = true ->
    let w' := snd (make_call fuel number w) in
    fst (make_call fuel number w) = Raise KeyboardInterrupt
    /\ call_active w' = Some true
    /\ hangups w' = hangups w
    /\ written w' = (tx c ++ [("ATD" ++ number ++ ";" ++ CRLF)%string])%list
    /\ exists f d,
         fs_lookup (outgoing_log number (local t)) (fs w') = Some f
         /\ content f = header_text "outgoing" number d.
Proof.
  intros fuel number w c e1 e2 es Hs Ha Hsc Hs1 Hs2 Haff t Hv w'.
  pose proof (send_at_exchange ("ATD" ++ number ++ ";") 2000%N
                (dial_announced number w) c e1 (e2 :: es) Hs Ha Hsc Hs1) as Hd.
  set (r := strip (rx c ++ arrives e1)) in *.
  set (w1 := exchanged (("ATD" ++ number ++ ";") ++ CRLF) c e1 (e2 :: es)
               (dial_announced number w)) in *.
  set (log := outgoing_log number (local t)) in *.
  set (hdr := {| content := header_text "outgoing" number (local t);
                 mtime := epoch t |}).
  set (w2 := set_active (Some true)
               (set_out (out w1 ++ ["✅ 正在通話中... (按 Ctrl+C 結束)"]) w1)).
  set (w3 := set_fs (fs_put log hdr (fs w1)) w2).
  set (rest := (time_sleep 2000 ;;
                _monitor_call fuel log number "outgoing" ;; ret true) : M bool).
  assert (E : make_call fuel number w = rest w3).
  { rewrite (make_call_accepted fuel number r w w1 Hd Haff). fold w2.
    unfold bind at 1. rewrite create_log_file_run. cbv zeta.
    change ("outgoing" ++ "_" ++ number ++ "_"
            ++ strftime_compact (local (now w2)) ++ ".txt") with log.
    rewrite (valid_name_open_error _ Hv). reflexivity. }
  assert (R : rest w3
              = (Raise KeyboardInterrupt,
                 {| ser := option_map (deliver (arrives e2) false) (ser w3);
                    call_active := Some true; fs := fs w3; out := out w3;
                    now := match clock e2 with Some x => x | None => now w3 end;
                    script := es |})).
  { unfold rest, bind, time_sleep.
    change (script w3) with (e2 :: es). cbv iota beta.
    rewrite Hs2. reflexivity. }
  unfold w'. rewrite E, R. simpl.
  split; [ reflexivity | ].
  split; [ reflexivity | ].
  split.
  { unfold hangups. simpl. rewrite !count_occ_app. simpl.
    destruct (string_dec "✅ 正在通話中... (按 Ctrl+C 結束)" hangup_banner) as [X | _];
      [ discriminate X | ].
    destruct (string_dec ("📞 緊打去 " ++ number ++ "...") hangup_banner) as [X | _];
      [ discriminate X | lia ]. }
  split.
  { unfold written. simpl. rewrite !string_app_assoc. reflexivity. }
  exists hdr, (local t). split; [ apply fs_lookup_put_same | reflexivity ].
Qed.

Lemma interrupt_before_monitoring_skips_hangup_witness :
  fst (make_call 3 "+85312345678" (connected [reply "OK"; ctrl_c]))
  = Raise KeyboardInterrupt
  /\ call_active (snd (make_call 3 "+85312345678" (connected [reply "OK"; ctrl_c])))
     = Some true.
Proof.
  destruct (interrupt_before_monitoring_skips_hangup 3 "+85312345678"
              (connected [reply "OK"; ctrl_c]) open_port (reply "OK") ctrl_c []
              eq_refl eq_refl eq_refl eq_refl eq_refl
              ltac:(vm_compute; reflexivity) ltac:(vm_compute; reflexivity))
    as [H1 [H2 _]].
  split; [ exact H1 | exact H2 ].
Defined.

(** ** Ctrl+C during a call *)

(** Ctrl+C in the monitoring loop is the operator's way to end the call,
    not an error: when the loop is left by [KeyboardInterrupt] and the
    [hangup()] that follows returns, [_monitor_call] returns normally, having
    printed the interruption notice, hung up and reported the log, in that
    order.  Any other exception from the loop is raised again once
    [hangup()] has returned and the log has been reported. *)
Theorem ctrl_c_ends_the_call_without_error :
  forall (fuel : nat) (log number call_type : string) (w w1 w2 : World)
         (e : exn) (b : bool),
    monitor_loop fuel log (monitor_entered log w) = (Raise e, w1) ->
    hangup (match e with
            | KeyboardInterrupt => snd (print interrupted_text w1)
            | _ => w1
            end) = (Ok b, w2) ->
    _monitor_call fuel log number call_type w
    = (match e with
       | KeyboardInterrupt => Ok tt
       | _ => Raise e
       end,
       set_out (out w2 ++ [saved_text log]) w2)
    /\ (e = KeyboardInterrupt ->
        exists during,
          out w2 = (out w1 ++ interrupted_text :: hangup_banner :: during)%list).
Proof.
  intros fuel log number call_type w w1 w2 e b Hl Hh.
  split.
  - rewrite monitor_call_unfold. unfold try_finally, monitor_try, try_except.
    rewrite Hl.
    pose proof (monitor_finally_result log
                  (match e with
                   | KeyboardInterrupt => snd (print interrupted_text w1)
                   | _ => w1
                   end)) as Hf.
    rewrite Hh in Hf.
    destruct e; simpl in *; rewrite Hf; reflexivity.
  - intro He. subst e.
    rewrite hangup_after_banner in Hh.
    apply bind_ok in Hh. destruct Hh as [res [v [Hs Hh]]].
    apply bind_ok in Hh. destruct Hh as [[] [v' [Hset Hh]]].
    injection Hset as Hv'. subst v'.
    destruct res as [r | ]; [ | discriminate ].
    unfold py_in, ret in Hh. injection Hh as _ Hw2. subst w2.
    destruct (send_at_some_connected _ _ _ _ _ Hs) as [c Hc].
    pose proof (send_at_out_connected "ATH" 1000%N _ c Hc) as Ho.
    rewrite Hs in Ho. simpl in Ho.
    exists []. simpl. rewrite Ho. rewrite <- app_assoc. reflexivity.
Qed.

Lemma ctrl_c_ends_the_call_without_error_witness :
  _monitor_call 3 "log.txt" "n" "outgoing" (in_call [ctrl_c; reply "OK"])
  = (Ok tt,
     set_out [ "📝 正在記錄通話到: call_logs/log.txt";
               "💬 對話內容 (Ctrl+C 結束通話):";
               interrupted_text; hangup_banner; saved_text "log.txt" ]
       (snd (_monitor_call 3 "log.txt" "n" "outgoing" (in_call [ctrl_c; reply "OK"])))).
Proof.
  rewrite (proj1 (ctrl_c_ends_the_call_without_error 3 "log.txt" "n" "outgoing"
                    (in_call [ctrl_c; reply "OK"])
                    (snd (monitor_loop 3 "log.txt"
                            (monitor_entered "log.txt" (in_call [ctrl_c; reply "OK"]))))
                    (snd (hangup (snd (print interrupted_text
                       (snd (monitor_loop 3 "log.txt"
                               (monitor_entered "log.txt" (in_call [ctrl_c; reply "OK"]))))))))
                    KeyboardInterrupt true eq_refl eq_refl)).
  reflexivity.
Defined.
